(** * EPH Controls Ember thermostat: the climate platform

    A shallow embedding of [homeassistant/components/ephember/climate.py]:
    the zone-activity inference ([zone_is_active], [zone_is_scheduled_on] and
    their helpers), the mode mapping and the entity's mutating methods.

    Conventions of the embedding.
    - A zone is the JSON dictionary the vendor client hands out.  Python values
      are the type [pyval]; a dictionary is an association list read by its
      first binding.  Strings are byte strings.
    - A Python float is the rational it stands for ([Q]); the one float
      operation of the module, the division of the timestamp by [1000], is
      rounded to the nearest double ([round_binary64]).
    - An exception is the [Raise] result; logging, the system clock and the
      calls made on the vendor client live in the state [World] of the monad [M].
    - The accessors imported from [pyephember] ([zone_mode],
      [zone_current_temperature], ...) are not part of this module: they are
      the fields of the class [PyEphember].
    - The module holds two enumerations called [ZoneMode]: the one it imports
      from [pyephember], whose members [zone_mode] returns, and the one it
      defines itself afterwards.  They are kept apart ([pyephember.ZoneMode]
      and [ZoneMode]); [==] between their members is [py_eq]. *)

From Stdlib Require Import ZArith QArith Qround Qabs Qpower List String Ascii Bool Lia Lqa.
Import ListNotations.

Set Warnings "-register-all".
Local Open Scope string_scope.
Local Open Scope Z_scope.

(** ** Python values and exceptions *)

Inductive pyval : Type :=
| PNone : pyval
| PBool : bool -> pyval
| PInt : Z -> pyval
| PFloat : Q -> pyval
| PStr : string -> pyval
| PDict : list (string * pyval) -> pyval.

Definition dict : Type := list (string * pyval).

Inductive exn : Type :=
| KeyError
| TypeError
| ValueError
| AttributeError
| OverflowError
| OSError.

Inductive result (A : Type) : Type :=
| Ok : A -> result A
| Raise : exn -> result A.

Arguments Ok {A} _.
Arguments Raise {A} _.

Definition bindR {A B : Type} (c : result A) (k : A -> result B) : result B :=
  match c with
  | Ok a => k a
  | Raise e => Raise e
  end.

Declare Scope result_scope.
Delimit Scope result_scope with res.
Notation "'let?' x ':=' c 'in' k" := (bindR c (fun x => k))
  (at level 10, x name, c at level 100, k at level 200) : result_scope.
Local Open Scope result_scope.

(** [d[k]] on a dictionary, and on any value: only a dictionary can be
    subscripted by a string. *)
Fixpoint dict_find (k : string) (d : dict) : option pyval :=
  match d with
  | [] => None
  | (k', v) :: rest => if String.eqb k k' then Some v else dict_find k rest
  end.

Definition dict_getitem (d : dict) (k : string) : result pyval :=
  match dict_find k d with
  | Some v => Ok v
  | None => Raise KeyError
  end.

Definition getitem (v : pyval) (k : string) : result pyval :=
  match v with
  | PDict d => dict_getitem d k
  | _ => Raise TypeError
  end.

(** [d.get(k, default)] on a dictionary, and [v.get(k, default)] on any value:
    only a dictionary has the method. *)
Definition dict_get (d : dict) (k : string) (default : pyval) : pyval :=
  match dict_find k d with
  | Some v => v
  | None => default
  end.

Definition get_method (v : pyval) (k : string) (default : pyval) : result pyval :=
  match v with
  | PDict d => Ok (dict_get d k default)
  | _ => Raise AttributeError
  end.

(** Truth value of a Python value, as [if v], [not v] and [v or w] test it. *)
Definition truthy (v : pyval) : bool :=
  match v with
  | PNone => false
  | PBool b => b
  | PInt z => negb (z =? 0)%Z
  | PFloat q => negb (Qeq_bool q 0)
  | PStr s => negb (String.eqb s "")
  | PDict d => match d with [] => false | _ => true end
  end.

(** The number a value stands for in arithmetic and ordering ([bool] is a
    subclass of [int]); [None], strings and dictionaries are not numbers. *)
Definition as_number (v : pyval) : option Q :=
  match v with
  | PBool b => Some (if b then 1%Q else 0%Q)
  | PInt z => Some (inject_Z z)
  | PFloat q => Some q
  | _ => None
  end.

(** [v > x] and [v >= x] against a number [x]: a [TypeError] unless [v] is a
    number too. *)
Definition py_gt (v : pyval) (x : Q) : result bool :=
  match as_number v with
  | Some q => Ok (negb (Qle_bool q x))
  | None => Raise TypeError
  end.

Definition py_ge (v : pyval) (x : Q) : result bool :=
  match as_number v with
  | Some q => Ok (Qle_bool x q)
  | None => Raise TypeError
  end.

(** Rounding to the nearest double, ties to even: 53 bits, exponents from
    [-1074], and an [OverflowError] from [2 ^ 1024] on, as the quotient of
    two integers gives it. *)
Definition round_half_even (x : Q) : Z :=
  let f := Qfloor x in
  match (x - inject_Z f ?= 1 # 2)%Q with
  | Lt => f
  | Gt => f + 1
  | Eq => if Z.even f then f else f + 1
  end.

(** The largest [l] with [2 ^ l <= a], for [a > 0]. *)
Definition floor_log2 (a : Q) : Z :=
  let g := Z.log2 (Qnum a) - Z.log2 (Zpos (Qden a)) in
  if Qle_bool (2 ^ g)%Q a then g else g - 1.

Definition round_binary64 (q : Q) : result Q :=
  if Qeq_bool q 0 then Ok 0%Q
  else
    let a := Qabs q in
    let e := Z.max (floor_log2 a - 52) (-1074) in
    let r := Qred (inject_Z (round_half_even (a / 2 ^ e)) * 2 ^ e)%Q in
    if Qle_bool (2 ^ 1024)%Q r then Raise OverflowError
    else Ok (if Qle_bool 0 q then r else (- r)%Q).

(** [v / x], true division of a number by a number that is not zero: the
    quotient, rounded to a double. *)
Definition py_truediv (v : pyval) (x : Q) : result Q :=
  match as_number v with
  | Some q => round_binary64 (q / x)%Q
  | None => Raise TypeError
  end.

(** ** Times of day *)

(** [datetime.time(hour, minute)]. *)
Record time : Type := mk_time { hour : Z; minute : Z }.

(** [t1 <= t2] on naive times. *)
Definition time_le (t1 t2 : time) : bool :=
  (hour t1 <? hour t2) || ((hour t1 =? hour t2) && (minute t1 <=? minute t2)).

(** [start <= t <= end], the chained comparison. *)
Definition time_between (start_time t end_time : time) : bool :=
  time_le start_time t && time_le t end_time.

(** The orders the statements use: [t1 <= t2] is an earlier hour, or the same
    hour and no later minute. *)
Definition time_leq (t1 t2 : time) : Prop :=
  hour t1 < hour t2 \/ (hour t1 = hour t2 /\ minute t1 <= minute t2).

(** [now] lies in the window, both ends included. *)
Definition in_window (now : time) (w : time * time) : Prop :=
  time_leq (fst w) now /\ time_leq now (snd w).

(** [tm_hour] and [tm_min] of [time.gmtime(secs)], for whole seconds since
    the epoch. *)
Definition gmtime_hm (secs : Z) : time :=
  mk_time ((secs / 3600) mod 24) ((secs / 60) mod 60).

(** [datetime.datetime.strptime(s, '%H:%M')]: an hour of one or two digits up
    to 23, a colon, a minute of one or two digits up to 59, and nothing
    else. *)
Definition digit_value (c : ascii) : option Z :=
  let n := Z.of_nat (nat_of_ascii c) in
  if (48 <=? n) && (n <=? 57) then Some (n - 48) else None.

Definition digits_upto (bound : Z) (s : string) : option Z :=
  match s with
  | String a EmptyString => digit_value a
  | String a (String b EmptyString) =>
      match digit_value a, digit_value b with
      | Some x, Some y => if 10 * x + y <=? bound then Some (10 * x + y) else None
      | _, _ => None
      end
  | _ => None
  end.

Fixpoint split_colon (s : string) : option (string * string) :=
  match s with
  | EmptyString => None
  | String c rest =>
      if Ascii.eqb c ":"%char then Some (EmptyString, rest)
      else match split_colon rest with
           | Some (h, m) => Some (String c h, m)
           | None => None
           end
  end.

Definition strptime_HM (v : pyval) : result time :=
  match v with
  | PStr s =>
      match split_colon s with
      | Some (h, m) =>
          match digits_upto 23 h, digits_upto 59 m with
          | Some hh, Some mm => Ok (mk_time hh mm)
          | _, _ => Raise ValueError
          end
      | None => Raise ValueError
      end
  | _ => Raise TypeError
  end.

(** ** The world: clock, log and vendor client *)

(** [class ZoneMode(Enum)] of line 89: the class the module defines after
    its imports.  From there on the name [ZoneMode] means this class. *)
Inductive ZoneMode : Type :=
| AUTO
| ALL_DAY
| ON
| OFF.

(** [pyephember.pyephember.ZoneMode], the class the module imports at line
    18 and whose members [zone_mode] returns.  Its members have the names of
    the members above; it is another class all the same. *)
Module pyephember.

Inductive ZoneMode : Type :=
| AUTO
| ALL_DAY
| ON
| OFF.

(** [mode.name]. *)
Definition name (mode : ZoneMode) : string :=
  match mode with
  | AUTO => "AUTO"
  | ALL_DAY => "ALL_DAY"
  | ON => "ON"
  | OFF => "OFF"
  end.

End pyephember.

(** Modelled from the spec: the platform's [HVACMode] enumeration is imported
    from [homeassistant.components.climate], which is not among the sources.
    The spec names the three modes this integration offers (heat-cool, heat,
    off); the others are the platform's remaining modes. *)
Inductive HVACMode : Type :=
| HVAC_OFF
| HVAC_HEAT
| HVAC_COOL
| HVAC_HEAT_COOL
| HVAC_AUTO
| HVAC_DRY
| HVAC_FAN_ONLY.

Inductive HVACAction : Type :=
| HEATING
| IDLE.

(** The records written with [_LOGGER.error], one constructor per call. *)
Inductive log_record : Type :=
| LogGotZone (zone : dict)                (* "GOT zone: %s" *)
| LogTimestampError                       (* "Error getting timestamp from zone, using current times" *)
| LogTestingJonah                         (* "Testing JONAH" *)
| LogInvalidOperationMode (m : HVACMode)  (* "Invalid operation mode provided %s" *).

(** The calls made on the vendor client [self._ember]. *)
Inductive ember_call : Type :=
| set_mode_by_name (name : string) (mode : ZoneMode)
| activate_boost_by_name (name : string) (temperature : Q)
| deactivate_boost_by_name (name : string)
| set_target_temperture_by_name (name : string) (temperature : Q).

Record World : Type := mk_world {
  clock : Z;                      (* system time, whole seconds since the epoch *)
  logged : list log_record;       (* oldest first *)
  ember_calls : list ember_call   (* oldest first *)
}.

Definition M (A : Type) : Type := World -> result A * World.

Definition ret {A : Type} (a : A) : M A := fun w => (Ok a, w).

Definition bind {A B : Type} (c : M A) (k : A -> M B) : M B :=
  fun w =>
    match c w with
    | (Ok a, w') => k a w'
    | (Raise e, w') => (Raise e, w')
    end.

Definition lift {A : Type} (c : result A) : M A := fun w => (c, w).

(** [try: body / except: handler], the bare [except] that catches
    everything. *)
Definition try_except {A : Type} (body handler : M A) : M A :=
  fun w =>
    match body w with
    | (Ok a, w') => (Ok a, w')
    | (Raise _, w') => handler w'
    end.

Definition log_error (r : log_record) : M unit :=
  fun w => (Ok tt, mk_world (clock w) (logged w ++ [r]) (ember_calls w)).

Definition call_ember (c : ember_call) : M unit :=
  fun w => (Ok tt, mk_world (clock w) (logged w) (ember_calls w ++ [c])).

(** [time.gmtime()] without an argument reads the system clock. *)
Definition gmtime_now : M time := fun w => (Ok (gmtime_hm (clock w)), w).

Declare Scope monad_scope.
Delimit Scope monad_scope with monad.
Notation "x <- c ;; k" := (bind c (fun x => k))
  (at level 61, c at next level, right associativity) : monad_scope.
Notation "c ;; k" := (bind c (fun _ => k))
  (at level 61, right associativity) : monad_scope.
Local Open Scope monad_scope.

(** ** What the module imports *)

(** The zone accessors of [pyephember.pyephember], whose bodies are not in
    this repository.  A field gives what the accessor returns on a zone on
    which it returns: a member of the imported [ZoneMode], numbers for the
    temperatures, truth values for the two flags.  What the accessors do on
    a dictionary that lacks the keys they read is outside this module, and
    outside what is stated here. *)
Class PyEphember : Type := {
  zone_mode : dict -> pyephember.ZoneMode;
  zone_current_temperature : dict -> Q;
  zone_target_temperature : dict -> Q;
  zone_is_boost_active : dict -> bool;
  zone_is_hot_water : dict -> bool;
  zone_name : dict -> string
}.

(** The seconds the C library's [gmtime] accepts; outside them
    [time.gmtime] raises. *)
Class Platform : Type := {
  gmtime_supported : Z -> bool
}.

(** [time.gmtime(secs)] followed by [datetime.time(tm_hour, tm_min)]. *)
Definition gmtime `{Platform} (secs : Q) : result time :=
  let t := Qfloor secs in
  if gmtime_supported t then Ok (gmtime_hm t) else Raise OSError.

(** ** Mode tables *)

Definition HVACMode_eqb (a b : HVACMode) : bool :=
  match a, b with
  | HVAC_OFF, HVAC_OFF | HVAC_HEAT, HVAC_HEAT | HVAC_COOL, HVAC_COOL
  | HVAC_HEAT_COOL, HVAC_HEAT_COOL | HVAC_AUTO, HVAC_AUTO
  | HVAC_DRY, HVAC_DRY | HVAC_FAN_ONLY, HVAC_FAN_ONLY => true
  | _, _ => false
  end.

(** [mode.name]. *)
Definition ZoneMode_name (mode : ZoneMode) : string :=
  match mode with
  | AUTO => "AUTO"
  | ALL_DAY => "ALL_DAY"
  | ON => "ON"
  | OFF => "OFF"
  end.

Definition ZoneMode_members : list ZoneMode := [AUTO; ALL_DAY; ON; OFF].

(** Members of the two enumerations as objects: the class and the member's
    name.  [py_eq] is [==], which [Enum] leaves as identity: the same member
    of the same class. *)
Inductive enum_class : Type :=
| pyephember_ZoneMode   (* the class imported at line 18 *)
| module_ZoneMode       (* the class defined at line 89 *).

Record enum_member : Type := mk_member {
  member_class : enum_class;
  member_name : string
}.

Definition enum_class_eqb (a b : enum_class) : bool :=
  match a, b with
  | pyephember_ZoneMode, pyephember_ZoneMode
  | module_ZoneMode, module_ZoneMode => true
  | _, _ => false
  end.

Definition py_eq (a b : enum_member) : bool :=
  enum_class_eqb (member_class a) (member_class b)
  && String.eqb (member_name a) (member_name b).

Definition member_of_ZoneMode (mode : ZoneMode) : enum_member :=
  mk_member module_ZoneMode (ZoneMode_name mode).

Definition member_of_pyephember (mode : pyephember.ZoneMode) : enum_member :=
  mk_member pyephember_ZoneMode (pyephember.name mode).

Coercion member_of_ZoneMode : ZoneMode >-> enum_member.
Coercion member_of_pyephember : pyephember.ZoneMode >-> enum_member.

Definition EPH_TO_HA_STATE : list (string * HVACMode) :=
  [("AUTO", HVAC_HEAT_COOL); ("ON", HVAC_HEAT); ("OFF", HVAC_OFF)].

(** [d[k] = v] on a dictionary keyed by platform modes. *)
Fixpoint hvac_dict_set (k : HVACMode) (v : string) (d : list (HVACMode * string))
  : list (HVACMode * string) :=
  match d with
  | [] => [(k, v)]
  | (k', v') :: rest =>
      if HVACMode_eqb k k' then (k, v) :: rest else (k', v') :: hvac_dict_set k v rest
  end.

Definition hvac_dict_get (k : HVACMode) (d : list (HVACMode * string)) : option string :=
  match find (fun kv => HVACMode_eqb k (fst kv)) d with
  | Some kv => Some (snd kv)
  | None => None
  end.

(** [{value: key for key, value in EPH_TO_HA_STATE.items()}]. *)
Definition HA_STATE_TO_EPH : list (HVACMode * string) :=
  fold_left (fun d kv => hvac_dict_set (snd kv) (fst kv) d) EPH_TO_HA_STATE [].

(** [getattr(ZoneMode, name, None)]: a name that is not a string is a
    [TypeError], default or not; a string names a member or gives the
    default.  (The strings that reach it are the values of
    [HA_STATE_TO_EPH].) *)
Definition getattr_ZoneMode (name : option string) : result (option ZoneMode) :=
  match name with
  | None => Raise TypeError
  | Some s => Ok (find (fun m => String.eqb s (ZoneMode_name m)) ZoneMode_members)
  end.

(** ** Zone-activity inference *)

Definition days : list string :=
  ["monday"; "tuesday"; "wednesday"; "thursday"; "friday"; "saturday"; "sunday"].

Definition periods : list string := ["p1"; "p2"; "p3"].

(** The three places [zone_is_active] returns from. *)
Inductive active_return : Type :=
| ReturnScheduled   (* the schedule test passed: [return True] *)
| ReturnBoost       (* the boost test passed: [return True] *)
| ReturnIdle        (* [return False] *).

Section Inference.

Context {ember_api : PyEphember} {platform : Platform}.

Definition zone_is_target_temperature_reached (zone : dict) : bool :=
  Qle_bool (zone_target_temperature zone) (zone_current_temperature zone).

Definition _zone_boostactivation (zone : dict) : pyval :=
  dict_get zone "boostActivations" PNone.

Definition zone_boost_temperature (zone : dict) : result pyval :=
  let boost_activation := _zone_boostactivation zone in
  match boost_activation with
  | PNone => Ok PNone
  | _ => get_method boost_activation "targettemperature" PNone
  end.

Definition zone_is_target_boost_temperature_reached (zone : dict) : result bool :=
  let? boost_temperature := zone_boost_temperature zone in
  py_ge boost_temperature (zone_target_temperature zone).

Definition zone_advance_active (zone : dict) : pyval :=
  dict_get zone "isadvanceactive" (PBool false).

Definition zone_boost_hours (zone : dict) : result pyval :=
  if negb (zone_is_boost_active zone) then Ok (PInt 0)
  else
    let boost_activations := _zone_boostactivation zone in
    if negb (truthy boost_activations) then Ok (PInt 0)
    else get_method boost_activations "numberofhours" (PInt 0).

Definition scheduletime_to_time (stime : pyval) : result time :=
  strptime_HM stime.

(** [start_time <= zone_ts_time <= end_time] with the start read from period
    [first] and the end from period [last] of a day's programme. *)
Definition period_test (program : pyval) (first last : string) (zone_ts_time : time)
  : result bool :=
  let? p := getitem program first in
  let? s := getitem p "starttime" in
  let? start_time := scheduletime_to_time s in
  let? q := getitem program last in
  let? e := getitem q "endtime" in
  let? end_time := scheduletime_to_time e in
  Ok (time_between start_time zone_ts_time end_time).

(** [for period in ['p1', 'p2', 'p3']]; [true] stands for [return True]. *)
Fixpoint for_period (program : pyval) (zone_ts_time : time) (ps : list string)
  : result bool :=
  match ps with
  | [] => Ok false
  | period :: rest =>
      let? hit := period_test program period period zone_ts_time in
      if hit then Ok true else for_period program zone_ts_time rest
  end.

(** The body of [for day in [...]] for one day.  [mode] is whatever
    [zone_mode] returned; the two tests compare it with members of the
    module's [ZoneMode]. *)
Definition day_test (mode : enum_member) (zone : dict) (zone_ts_time : time)
  (day : string) : result bool :=
  let? programmes := dict_getitem zone "programmes" in
  let? program := getitem programmes day in
  if py_eq mode AUTO then for_period program zone_ts_time periods
  else if py_eq mode ALL_DAY then period_test program "p1" "p3" zone_ts_time
  else Ok false.

(** [for day in ['monday', ..., 'sunday']], then [return False]. *)
Fixpoint for_day (mode : enum_member) (zone : dict) (zone_ts_time : time)
  (ds : list string) : result bool :=
  match ds with
  | [] => Ok false
  | day :: rest =>
      let? hit := day_test mode zone zone_ts_time day in
      if hit then Ok true else for_day mode zone zone_ts_time rest
  end.

(** The body of the [try]. *)
Definition zone_timestamp_time (zone : dict) : result time :=
  let? timestamp := dict_getitem zone "timestamp" in
  let? secs := py_truediv timestamp 1000 in
  gmtime secs.

(** The [try]/[except] that sets [zone_ts_time]. *)
Definition zone_ts_time (zone : dict) : M time :=
  try_except
    (lift (zone_timestamp_time zone))
    (log_error LogTimestampError;; gmtime_now).

(** [zone_mode] returns a member of the imported class; [ZoneMode.OFF],
    [ZoneMode.ON] and, in the loop, [ZoneMode.AUTO] and [ZoneMode.ALL_DAY]
    are members of the class of line 89. *)
Definition zone_is_scheduled_on (zone : dict) : M bool :=
  let mode := zone_mode zone in
  if py_eq mode OFF then ret false
  else if py_eq mode ON then ret true
  else
    now <- zone_ts_time zone;;
    lift (for_day mode zone now days).

Definition zone_is_active_return (zone : dict) : M active_return :=
  log_error (LogGotZone zone);;
  scheduled <- zone_is_scheduled_on zone;;
  let on := if scheduled then true else truthy (zone_advance_active zone) in
  if on && negb (zone_is_target_temperature_reached zone) then ret ReturnScheduled
  else
    hours <- lift (zone_boost_hours zone);;
    boosting <- lift (py_gt hours 0);;
    if boosting then
      reached <- lift (zone_is_target_boost_temperature_reached zone);;
      if negb reached then ret ReturnBoost else ret ReturnIdle
    else ret ReturnIdle.

Definition zone_is_active (zone : dict) : M bool :=
  r <- zone_is_active_return zone;;
  ret match r with
      | ReturnScheduled | ReturnBoost => true
      | ReturnIdle => false
      end.

End Inference.

(** ** The entity *)

(** The fields of [EphEmberThermostat] the methods below read; the vendor
    client [self._ember] is reached through [call_ember]. *)
Record EphEmberThermostat : Type := mk_thermostat {
  _zone_name : string;
  _zone : dict;
  _hot_water : bool
}.

(** [map_mode_hass_eph] and [map_mode_eph_hass], the static methods.  The
    second reads [operation_mode.name] and nothing else, so it takes a member
    of either class. *)
Definition map_mode_hass_eph (operation_mode : HVACMode) : result (option ZoneMode) :=
  getattr_ZoneMode (hvac_dict_get operation_mode HA_STATE_TO_EPH).

Definition map_mode_eph_hass (operation_mode : enum_member) : HVACMode :=
  match find (fun kv => String.eqb (member_name operation_mode) (fst kv)) EPH_TO_HA_STATE with
  | Some kv => snd kv
  | None => HVAC_HEAT_COOL
  end.

Section Entity.

Context {ember_api : PyEphember} {platform : Platform}.

Definition EphEmberThermostat_init (zone : dict) : EphEmberThermostat :=
  mk_thermostat (zone_name zone) zone (zone_is_hot_water zone).

Definition current_temperature (self : EphEmberThermostat) : Q :=
  zone_current_temperature (_zone self).

Definition target_temperature (self : EphEmberThermostat) : M Q :=
  log_error LogTestingJonah;;
  ret (zone_target_temperature (_zone self)).

Definition hvac_action (self : EphEmberThermostat) : M HVACAction :=
  active <- zone_is_active (_zone self);;
  ret (if active then HEATING else IDLE).

Definition hvac_mode (self : EphEmberThermostat) : HVACMode :=
  map_mode_eph_hass (zone_mode (_zone self)).

(** The mutating methods return the entity as the call leaves it. *)
Definition set_hvac_mode (self : EphEmberThermostat) (hvac_mode : HVACMode)
  : M EphEmberThermostat :=
  mode <- lift (map_mode_hass_eph hvac_mode);;
  match mode with
  | Some mode => call_ember (set_mode_by_name (_zone_name self) mode);; ret self
  | None => log_error (LogInvalidOperationMode hvac_mode);; ret self
  end.

Definition is_aux_heat (self : EphEmberThermostat) : bool :=
  zone_is_boost_active (_zone self).

Definition turn_aux_heat_on (self : EphEmberThermostat) : M EphEmberThermostat :=
  call_ember (activate_boost_by_name (_zone_name self)
                (zone_target_temperature (_zone self)));;
  ret self.

Definition turn_aux_heat_off (self : EphEmberThermostat) : M EphEmberThermostat :=
  call_ember (deactivate_boost_by_name (_zone_name self));;
  ret self.

Definition min_temp (self : EphEmberThermostat) : Q :=
  if _hot_water self then zone_target_temperature (_zone self) else 5%Q.

Definition max_temp (self : EphEmberThermostat) : Q :=
  if _hot_water self then zone_target_temperature (_zone self) else 35%Q.

(** [temperature] is [kwargs.get(ATTR_TEMPERATURE)]. *)
Definition set_temperature (self : EphEmberThermostat) (temperature : option Q)
  : M EphEmberThermostat :=
  match temperature with
  | None => ret self
  | Some temperature =>
      if _hot_water self then ret self
      else
        target <- target_temperature self;;
        if Qeq_bool temperature target then ret self
        else if negb (Qle_bool temperature (max_temp self))
                || negb (Qle_bool (min_temp self) temperature)
        then ret self
        else
          call_ember (set_target_temperture_by_name (_zone_name self) temperature);;
          ret self
  end.

End Entity.

(** ** Reading the schedule as a table

    The statements below speak of a zone's schedule as a table of windows.
    [period_window] reads one window the way the loop body does, and
    [day_program] reads a day's programme the way the loop does. *)
Definition program_window (program : pyval) (first last : string)
  : result (time * time) :=
  let? p := getitem program first in
  let? s := getitem p "starttime" in
  let? start_time := strptime_HM s in
  let? q := getitem program last in
  let? e := getitem q "endtime" in
  let? end_time := strptime_HM e in
  Ok (start_time, end_time).

Definition period_window (zone : dict) (day first last : string) : result (time * time) :=
  let? programmes := dict_getitem zone "programmes" in
  let? program := getitem programmes day in
  program_window program first last.

(** [zone['programmes'][day]]. *)
Definition day_program (zone : dict) (day : string) : result pyval :=
  let? programmes := dict_getitem zone "programmes" in
  getitem programmes day.

(** The timestamp the [try] cannot use: the key is missing, its value is not
    a number, the quotient is too large for a float, or the seconds are
    outside the platform's range. *)
Definition timestamp_unusable `{Platform} (zone : dict) : Prop :=
  match dict_find "timestamp" zone with
  | None => True
  | Some v =>
      match py_truediv v 1000 with
      | Raise _ => True
      | Ok secs => gmtime_supported (Qfloor secs) = false
      end
  end.

(** The windows of a zone as a table, for zones whose windows read well. *)
Definition window_table (zone : dict) (day first last : string) : time * time :=
  match period_window zone day first last with
  | Ok win => win
  | Raise _ => (mk_time 0 0, mk_time 0 0)
  end.

(** ** A concrete client and sample zones

    Used to run the definitions: accessors that read the zone's own keys, the
    range of a 64-bit C library, and zones with one programme for the week.
    The sample zones carry every key these accessors read. *)
Definition dict_api : PyEphember := {|
  zone_mode := fun zone =>
    match dict_get zone "mode" PNone with
    | PInt 0 => pyephember.AUTO
    | PInt 1 => pyephember.ALL_DAY
    | PInt 2 => pyephember.ON
    | _ => pyephember.OFF
    end;
  zone_current_temperature := fun zone =>
    match as_number (dict_get zone "currenttemperature" PNone) with
    | Some q => q
    | None => 0%Q
    end;
  zone_target_temperature := fun zone =>
    match as_number (dict_get zone "targettemperature" PNone) with
    | Some q => q
    | None => 0%Q
    end;
  zone_is_boost_active := fun zone => truthy (dict_get zone "isboostactive" PNone);
  zone_is_hot_water := fun zone => truthy (dict_get zone "ishotwater" PNone);
  zone_name := fun zone =>
    match dict_get zone "name" PNone with
    | PStr s => s
    | _ => ""
    end
|}.

Definition glibc64 : Platform := {|
  gmtime_supported := fun t =>
    (-67768040609740800 <=? t) && (t <=? 67768036191676799)
|}.

Definition sample_period (starttime endtime : string) : pyval :=
  PDict [("starttime", PStr starttime); ("endtime", PStr endtime)].

Definition sample_program (p1 p2 p3 : pyval) : pyval :=
  PDict [("p1", p1); ("p2", p2); ("p3", p3)].

(** A week with programme [monday] on Monday and [other] on the other six
    days. *)
Definition sample_week (monday other : pyval) : pyval :=
  PDict (("monday", monday) :: map (fun day => (day, other)) (tl days)).

Definition night : pyval := sample_period "00:00" "00:00".

Definition sample_zone (mode timestamp : Z) (programmes : pyval)
  (current target : Q) : dict :=
  [("name", PStr "Hall"); ("mode", PInt mode); ("timestamp", PInt timestamp);
   ("programmes", programmes);
   ("isboostactive", PBool false); ("ishotwater", PBool false);
   ("currenttemperature", PFloat current); ("targettemperature", PFloat target)].

(** Tuesday 2 January 2024, in milliseconds since the epoch. *)
Definition tuesday_1000 : Z := 1704189600000.
Definition tuesday_1200 : Z := 1704196800000.

Definition world0 : World := mk_world 1704196800 [] [].

(** The office: 09:00 to 17:00 on every day of the week. *)
Definition office_hours : pyval :=
  sample_program (sample_period "09:00" "17:00") night night.

Definition office (mode timestamp : Z) : dict :=
  sample_zone mode timestamp (sample_week office_hours office_hours) 19 21.

(** A house heated from 06:00 to 22:00. *)
Definition house_day (p3_end : string) : pyval :=
  sample_program (sample_period "06:00" "08:00") (sample_period "12:00" "13:00")
                 (sample_period "17:00" p3_end).

Definition house (timestamp : Z) : dict :=
  sample_zone 1 timestamp (sample_week (house_day "22:00") (house_day "22:00")) 19 21.

(** The office with its advance flag set. *)
Definition office_advance (mode : Z) : dict :=
  ("isadvanceactive", PBool true) :: office mode tuesday_1200.

(** A zone without a schedule; a zone without a timestamp whose Monday
    starts at a time that is not of the form HH:MM. *)
Definition no_programmes : dict :=
  [("name", PStr "Hall"); ("mode", PInt 0); ("timestamp", PInt tuesday_1200);
   ("isboostactive", PBool false); ("ishotwater", PBool false);
   ("currenttemperature", PFloat 19); ("targettemperature", PFloat 21)].

Definition no_timestamp : dict :=
  [("name", PStr "Hall"); ("mode", PInt 0);
   ("programmes",
    sample_week (sample_program (sample_period "9am" "17:00") night night)
                office_hours);
   ("isboostactive", PBool false); ("ishotwater", PBool false);
   ("currenttemperature", PFloat 19); ("targettemperature", PFloat 21)].

(** The office switched off, boosted for two hours to 21 degrees, at 19
    degrees, with the given target temperature. *)
Definition boosted (target : Q) : dict :=
  [("name", PStr "Hall"); ("mode", PInt 3); ("timestamp", PInt tuesday_1200);
   ("programmes", sample_week office_hours office_hours);
   ("isboostactive", PBool true); ("ishotwater", PBool false);
   ("boostActivations",
    PDict [("numberofhours", PInt 2); ("targettemperature", PFloat 21)]);
   ("currenttemperature", PFloat 19); ("targettemperature", PFloat target)].

Definition hall : EphEmberThermostat :=
  mk_thermostat "Hall" (office 0 tuesday_1200) false.

(** What a computation returns, or raises, from a given world. *)
Definition returns {A : Type} (c : M A) (w : World) (a : A) : Prop :=
  fst (c w) = Ok a.

Definition raises {A : Type} (c : M A) (w : World) (e : exn) : Prop :=
  fst (c w) = Raise e.

(** ** The rest of the module *)

(** [OPERATION_LIST], the entity's [_attr_hvac_modes]. *)
Definition OPERATION_LIST : list HVACMode := [HVAC_HEAT_COOL; HVAC_HEAT; HVAC_OFF].

(** [zone_boost_timestamp]. *)
Definition zone_boost_timestamp `{PyEphember} (zone : dict) : result pyval :=
  if negb (zone_is_boost_active zone) then Ok PNone
  else
    let boost_activations := _zone_boostactivation zone in
    if negb (truthy boost_activations) then Ok PNone
    else get_method boost_activations "activatedon" PNone.

(** A time of day a clock can show. *)
Definition valid_time (t : time) : Prop :=
  0 <= hour t <= 23 /\ 0 <= minute t <= 59.

(** More sample zones: an evening period that runs past midnight, and the
    office with a boost record that lacks a target temperature. *)
Definition overnight : pyval :=
  sample_program (sample_period "22:00" "06:00") night night.

Definition boost_no_temperature : dict :=
  [("name", PStr "Hall"); ("mode", PInt 3); ("timestamp", PInt tuesday_1200);
   ("programmes", sample_week office_hours office_hours);
   ("isboostactive", PBool true); ("ishotwater", PBool false);
   ("boostActivations", PDict [("numberofhours", PInt 2)]);
   ("currenttemperature", PFloat 19); ("targettemperature", PFloat 21)].

(** * Properties *)

(** ** The monads *)

Lemma bindR_Ok_inv {A B : Type} (c : result A) (k : A -> result B) (b : B) :
  bindR c k = Ok b -> exists a, c = Ok a /\ k a = Ok b.
Proof.
  destruct c as [a | e]; simpl; intros Hk.
  - exists a; split; [reflexivity | exact Hk].
  - discriminate Hk.
Qed.

(** ** Times *)

Lemma time_le_leq (t1 t2 : time) : time_le t1 t2 = true <-> time_leq t1 t2.
Proof.
  unfold time_le, time_leq.
  rewrite orb_true_iff, andb_true_iff, Z.ltb_lt, Z.eqb_eq, Z.leb_le.
  reflexivity.
Qed.

Lemma time_between_window (now : time) (w : time * time) :
  time_between (fst w) now (snd w) = true <-> in_window now w.
Proof.
  unfold time_between, in_window.
  rewrite andb_true_iff, !time_le_leq; reflexivity.
Qed.

(** ** Mode mapping *)

Lemma HA_STATE_TO_EPH_table :
  HA_STATE_TO_EPH = [(HVAC_HEAT_COOL, "AUTO"); (HVAC_HEAT, "ON"); (HVAC_OFF, "OFF")].
Proof. reflexivity. Qed.

(** C7. Mapping a platform mode among heat-cool, heat and off to the vendor
    mode with [map_mode_hass_eph] and back with [map_mode_eph_hass] gives the
    platform mode again. *)
Theorem map_mode_round_trip (m : HVACMode) :
  In m [HVAC_HEAT_COOL; HVAC_HEAT; HVAC_OFF] ->
  exists v : ZoneMode,
    map_mode_hass_eph m = Ok (Some v) /\ map_mode_eph_hass v = m.
Proof.
  simpl; intros [<- | [<- | [<- | []]]].
  - exists AUTO; split; reflexivity.
  - exists ON; split; reflexivity.
  - exists OFF; split; reflexivity.
Qed.

Lemma map_mode_round_trip_heat :
  exists v : ZoneMode,
    map_mode_hass_eph HVAC_HEAT = Ok (Some v) /\ map_mode_eph_hass v = HVAC_HEAT.
Proof. apply (map_mode_round_trip HVAC_HEAT); simpl; auto. Defined.

Section EntityProperties.

Context {ember_api : PyEphember} {platform : Platform}.

(** C8, as the code has it.  For a platform mode outside heat-cool, heat and
    off, [HA_STATE_TO_EPH.get] gives [None] and [getattr] raises on it:
    [set_hvac_mode] ends with a [TypeError], with nothing logged and no call
    made on the vendor client. *)
Theorem set_hvac_mode_unmapped_raises (self : EphEmberThermostat) (w : World) :
  Forall (fun m => set_hvac_mode self m w = (Raise TypeError, w))
         [HVAC_COOL; HVAC_AUTO; HVAC_DRY; HVAC_FAN_ONLY].
Proof. repeat constructor. Qed.

(** A mapped mode is forwarded to the vendor client. *)
Lemma set_hvac_mode_mapped (self : EphEmberThermostat) (m : HVACMode) (v : ZoneMode)
  (w : World) :
  map_mode_hass_eph m = Ok (Some v) ->
  set_hvac_mode self m w =
    (Ok self, mk_world (clock w) (logged w)
                (ember_calls w ++ [set_mode_by_name (_zone_name self) v])).
Proof.
  intros Hm; unfold set_hvac_mode, bind, lift; rewrite Hm; reflexivity.
Qed.

(** C10. [turn_aux_heat_on] makes one call on the vendor client,
    [activate_boost_by_name], and the boost temperature it passes is the
    zone's target temperature at that moment: the value the entity's
    [target_temperature] reads before and after the call.  Nothing is logged
    and the entity is left as it was. *)
Theorem turn_aux_heat_on_passes_target (self : EphEmberThermostat) (w : World) :
  exists (target : Q) (self' : EphEmberThermostat) (w' : World),
    turn_aux_heat_on self w = (Ok self', w') /\
    ember_calls w' =
      (ember_calls w ++ [activate_boost_by_name (_zone_name self) target])%list /\
    returns (target_temperature self) w target /\
    returns (target_temperature self') w' target /\
    logged w' = logged w.
Proof.
  exists (zone_target_temperature (_zone self)), self.
  unfold turn_aux_heat_on, bind, call_ember, ret.
  eexists; split; [reflexivity |].
  repeat split.
Qed.

(** C9. A write of [t] with [set_temperature] never raises and leaves the
    entity as it was.  When the zone is a hot-water zone, or [t] equals the
    target, or [t] is below 5 or above 35, no call is made on the vendor
    client; otherwise exactly [set_target_temperture_by_name] with [t] is.
    The only record logged is the one reading the target temperature
    writes. *)
Theorem set_temperature_write (self : EphEmberThermostat) (t : Q) (w : World) :
  let rejected :=
    _hot_water self = true \/
    (t == zone_target_temperature (_zone self))%Q \/
    (t < 5)%Q \/ (35 < t)%Q in
  exists w' : World,
    set_temperature self (Some t) w = (Ok self, w') /\
    logged w' =
      (if _hot_water self then logged w else logged w ++ [LogTestingJonah])%list /\
    (rejected -> ember_calls w' = ember_calls w) /\
    (~ rejected ->
     ember_calls w' =
       (ember_calls w ++ [set_target_temperture_by_name (_zone_name self) t])%list).
Proof.
  intros rejected; subst rejected.
  unfold set_temperature, max_temp, min_temp.
  destruct (_hot_water self) eqn:Hhot.
  - eexists; split; [reflexivity |]. split; [reflexivity |]. split; [reflexivity |].
    intros Hn; exfalso; apply Hn; left; reflexivity.
  - unfold target_temperature, bind, log_error, ret; simpl.
    destruct (Qeq_bool t (zone_target_temperature (_zone self))) eqn:Heq.
    + eexists; split; [reflexivity |]. split; [reflexivity |]. split; [reflexivity |].
      intros Hn; exfalso; apply Hn; right; left.
      apply Qeq_bool_iff; exact Heq.
    + destruct (Qle_bool t 35) eqn:Hmax; simpl.
      * destruct (Qle_bool 5 t) eqn:Hmin; simpl.
        -- eexists; split; [reflexivity |]. split; [reflexivity |]. split; [| reflexivity].
           intros [Hh | [He | [Hlo | Hhi]]].
           ++ discriminate Hh.
           ++ apply Qeq_bool_iff in He; congruence.
           ++ apply Qle_bool_iff in Hmin.
              exfalso; exact (Qlt_not_le _ _ Hlo Hmin).
           ++ apply Qle_bool_iff in Hmax.
              exfalso; exact (Qlt_not_le _ _ Hhi Hmax).
        -- eexists; split; [reflexivity |]. split; [reflexivity |]. split; [reflexivity |].
           intros Hn; exfalso; apply Hn; right; right; left.
           apply Qnot_le_lt; intros Hle.
           apply Qle_bool_iff in Hle; congruence.
      * eexists; split; [reflexivity |]. split; [reflexivity |]. split; [reflexivity |].
        intros Hn; exfalso; apply Hn; right; right; right.
        apply Qnot_le_lt; intros Hle.
        apply Qle_bool_iff in Hle; congruence.
Qed.

End EntityProperties.

(** ** The schedule test *)

(** A member of the imported class is no member of the module's class. *)
Lemma py_eq_across (m : pyephember.ZoneMode) (v : ZoneMode) : py_eq m v = false.
Proof. reflexivity. Qed.

Section InferenceProperties.

Context {ember_api : PyEphember} {platform : Platform}.

(** The [try]/[except] always yields a time of day: the one of the zone's
    timestamp, or the clock's after a logged error. *)
Lemma zone_ts_time_cases (zone : dict) (w : World) :
  (exists t, zone_timestamp_time zone = Ok t /\ zone_ts_time zone w = (Ok t, w)) \/
  (exists e, zone_timestamp_time zone = Raise e /\
             zone_ts_time zone w =
               (Ok (gmtime_hm (clock w)),
                mk_world (clock w) (logged w ++ [LogTimestampError]) (ember_calls w))).
Proof.
  unfold zone_ts_time, try_except, lift.
  destruct (zone_timestamp_time zone) as [t | e].
  - left; exists t; split; reflexivity.
  - right; exists e; split; reflexivity.
Qed.

Lemma zone_ts_time_total (zone : dict) (w : World) :
  exists now w', zone_ts_time zone w = (Ok now, w').
Proof.
  destruct (zone_ts_time_cases zone w) as [(t & _ & H) | (e & _ & H)];
    rewrite H; eauto.
Qed.

(** The time of day does not depend on what was logged or sent before. *)
Lemma zone_ts_time_clock (zone : dict) (w1 w2 : World) :
  clock w1 = clock w2 ->
  fst (zone_ts_time zone w1) = fst (zone_ts_time zone w2).
Proof.
  intros Hc; unfold zone_ts_time, try_except, lift.
  destruct (zone_timestamp_time zone); simpl; [reflexivity | now rewrite Hc].
Qed.

(** Neither early return is taken: [zone_mode] gives a member of the
    imported class, the tests name members of the module's class. *)
Lemma zone_is_scheduled_on_run (zone : dict) (w : World) :
  zone_is_scheduled_on zone w =
    (now <- zone_ts_time zone;; lift (for_day (zone_mode zone) zone now days)) w.
Proof.
  unfold zone_is_scheduled_on. rewrite !py_eq_across. reflexivity.
Qed.

Lemma zone_is_scheduled_on_clock (zone : dict) (w1 w2 : World) :
  clock w1 = clock w2 ->
  fst (zone_is_scheduled_on zone w1) = fst (zone_is_scheduled_on zone w2).
Proof.
  intros Hc. rewrite !zone_is_scheduled_on_run. unfold bind.
  pose proof (zone_ts_time_clock zone w1 w2 Hc) as Hts.
  destruct (zone_ts_time zone w1) as [[t1 | e1] u1];
    destruct (zone_ts_time zone w2) as [[t2 | e2] u2]; simpl in Hts;
    try discriminate Hts; injection Hts as ->; reflexivity.
Qed.

(** The test is the scan of the week at the time of day the [try]/[except]
    gave, and leaves the world as the [try]/[except] left it. *)
Lemma zone_is_scheduled_on_scan (zone : dict) (w : World) :
  exists now w',
    zone_ts_time zone w = (Ok now, w') /\
    zone_is_scheduled_on zone w = (for_day (zone_mode zone) zone now days, w').
Proof.
  destruct (zone_ts_time_total zone w) as (now & w' & Hts).
  exists now, w'; split; [exact Hts |].
  rewrite zone_is_scheduled_on_run. unfold bind, lift. rewrite Hts. reflexivity.
Qed.

(** *** The scan as the program runs it *)

(** For a member of the imported class neither branch of the loop body is
    taken: a day's programme is looked up and nothing in it is read. *)
Lemma day_test_imported (m : pyephember.ZoneMode) (zone : dict) (now : time)
  (day : string) :
  day_test m zone now day = (let? _ := day_program zone day in Ok false).
Proof.
  unfold day_test, day_program.
  destruct (dict_getitem zone "programmes") as [programmes |]; [| reflexivity].
  cbn [bindR]. destruct (getitem programmes day); [| reflexivity].
  cbn [bindR]. rewrite !py_eq_across. reflexivity.
Qed.

Lemma day_program_raise (zone : dict) (day : string) (e : exn) :
  day_program zone day = Raise e -> e = KeyError \/ e = TypeError.
Proof.
  unfold day_program, dict_getitem, getitem.
  destruct (dict_find "programmes" zone) as [programmes |]; cbn [bindR].
  - destruct programmes as [| b | z | q | s | d]; try (intros [= <-]; auto).
    unfold dict_getitem. destruct (dict_find day d); intros [= <-]; auto.
  - intros [= <-]; auto.
Qed.

Lemma for_day_imported_present (m : pyephember.ZoneMode) (zone : dict) (now : time)
  (ds : list string) :
  (forall day, In day ds -> exists program, day_program zone day = Ok program) ->
  for_day m zone now ds = Ok false.
Proof.
  induction ds as [| day rest IH]; intros Hall; [reflexivity |].
  cbn [for_day]. rewrite day_test_imported.
  destruct (Hall day (or_introl eq_refl)) as (program & ->). cbn [bindR].
  apply IH; intros d Hd; apply Hall; right; exact Hd.
Qed.

Lemma for_day_imported_outcome (m : pyephember.ZoneMode) (zone : dict) (now : time)
  (ds : list string) :
  match for_day m zone now ds with
  | Ok b =>
      b = false /\
      forall day, In day ds -> exists program, day_program zone day = Ok program
  | Raise e => exists day, In day ds /\ day_program zone day = Raise e
  end.
Proof.
  induction ds as [| day rest IH]; [split; [reflexivity | intros d []] |].
  cbn [for_day]. rewrite day_test_imported.
  destruct (day_program zone day) as [program | e] eqn:Hday; cbn [bindR].
  - destruct (for_day m zone now rest) as [b | e].
    + destruct IH as [-> Hrest]. split; [reflexivity |].
      intros d [<- | Hd]; [exists program; exact Hday | exact (Hrest d Hd)].
    + destruct IH as (d & Hd & He). exists d; split; [right; exact Hd | exact He].
  - exists day; split; [left; reflexivity | exact Hday].
Qed.

(** *** The two branches of the loop body *)

Lemma period_window_program (zone : dict) (day first last : string) :
  period_window zone day first last =
    (let? programmes := dict_getitem zone "programmes" in
     let? program := getitem programmes day in
     program_window program first last).
Proof. reflexivity. Qed.

Lemma period_test_window (program : pyval) (first last : string) (now : time) :
  period_test program first last now =
    (let? win := program_window program first last in
     Ok (time_between (fst win) now (snd win))).
Proof.
  unfold period_test, program_window, scheduletime_to_time.
  destruct (getitem program first) as [p | ]; [simpl | reflexivity].
  destruct (getitem p "starttime") as [s | ]; [simpl | reflexivity].
  destruct (strptime_HM s) as [st | ]; [simpl | reflexivity].
  destruct (getitem program last) as [q | ]; [simpl | reflexivity].
  destruct (getitem q "endtime") as [e | ]; [simpl | reflexivity].
  destruct (strptime_HM e) as [et | ]; reflexivity.
Qed.

Lemma period_window_inv (zone : dict) (day first last : string) (win : time * time) :
  period_window zone day first last = Ok win ->
  exists programmes program,
    dict_getitem zone "programmes" = Ok programmes /\
    getitem programmes day = Ok program /\
    program_window program first last = Ok win.
Proof.
  rewrite period_window_program; intros H.
  apply bindR_Ok_inv in H as (programmes & Hp & H).
  apply bindR_Ok_inv in H as (program & Hd & H).
  exists programmes, program; auto.
Qed.

(** The inner loop over a day's periods whose windows all read well. *)
Lemma for_period_table (program : pyval) (now : time) (table : string -> time * time)
  (ps : list string) :
  (forall period, In period ps ->
                  program_window program period period = Ok (table period)) ->
  for_period program now ps =
    Ok (existsb (fun period =>
                   time_between (fst (table period)) now (snd (table period))) ps).
Proof.
  induction ps as [| period rest IH]; intros Hwin; [reflexivity |].
  simpl. rewrite period_test_window, (Hwin period (or_introl eq_refl)). simpl.
  destruct (time_between (fst (table period)) now (snd (table period)));
    [reflexivity |].
  apply IH; intros p Hp; apply Hwin; right; exact Hp.
Qed.

(** The outer loop on the branch of [ZoneMode.AUTO]. *)
Lemma for_day_auto_table (zone : dict) (now : time)
  (table : string -> string -> time * time) (ds : list string) :
  (forall day period, In day ds -> In period periods ->
                      period_window zone day period period = Ok (table day period)) ->
  for_day AUTO zone now ds =
    Ok (existsb (fun day =>
          existsb (fun period =>
             time_between (fst (table day period)) now (snd (table day period)))
            periods) ds).
Proof.
  induction ds as [| day rest IH]; intros Hwin; [reflexivity |].
  assert (Hday : day_test AUTO zone now day =
                 Ok (existsb (fun period =>
                       time_between (fst (table day period)) now
                                    (snd (table day period))) periods)).
  { destruct (period_window_inv zone day "p1" "p1" _
                (Hwin day "p1" (or_introl eq_refl) (or_introl eq_refl)))
      as (programmes & program & Hps & Hp & _).
    unfold day_test. rewrite Hps; cbn [bindR]. rewrite Hp; cbn [bindR].
    change (py_eq AUTO AUTO) with true; cbv iota.
    apply (for_period_table program now (table day)).
    intros period Hin.
    pose proof (Hwin day period (or_introl eq_refl) Hin) as Hw.
    rewrite period_window_program, Hps in Hw; cbn [bindR] in Hw.
    rewrite Hp in Hw; exact Hw. }
  cbn [for_day]. rewrite Hday. cbn [bindR existsb].
  destruct (existsb _ periods); cbn [orb]; [reflexivity |].
  apply IH; intros d p Hd Hp; apply Hwin; [right; exact Hd | exact Hp].
Qed.

(** The outer loop on the branch of [ZoneMode.ALL_DAY]. *)
Lemma for_day_all_day_table (zone : dict) (now : time)
  (table : string -> time * time) (ds : list string) :
  (forall day, In day ds -> period_window zone day "p1" "p3" = Ok (table day)) ->
  for_day ALL_DAY zone now ds =
    Ok (existsb (fun day =>
          time_between (fst (table day)) now (snd (table day))) ds).
Proof.
  induction ds as [| day rest IH]; intros Hwin; [reflexivity |].
  assert (Hday : day_test ALL_DAY zone now day =
                 Ok (time_between (fst (table day)) now (snd (table day)))).
  { destruct (period_window_inv zone day "p1" "p3" _ (Hwin day (or_introl eq_refl)))
      as (programmes & program & Hps & Hp & Hw).
    unfold day_test. rewrite Hps; cbn [bindR]. rewrite Hp; cbn [bindR].
    change (py_eq ALL_DAY AUTO) with false; cbv iota.
    change (py_eq ALL_DAY ALL_DAY) with true; cbv iota.
    rewrite period_test_window, Hw; reflexivity. }
  cbn [for_day]. rewrite Hday. cbn [bindR existsb].
  destruct (time_between _ now _); cbn [orb]; [reflexivity |].
  apply IH; intros d Hd; apply Hwin; right; exact Hd.
Qed.

End InferenceProperties.

Section ScheduleTheorems.

Context {ember_api : PyEphember} {platform : Platform}.

Lemma timestamp_unusable_raises (zone : dict) :
  timestamp_unusable zone <-> exists e, zone_timestamp_time zone = Raise e.
Proof.
  unfold timestamp_unusable, zone_timestamp_time, dict_getitem, gmtime.
  destruct (dict_find "timestamp" zone) as [v |]; cbn [bindR].
  - destruct (py_truediv v 1000) as [secs | e]; cbn [bindR].
    + destruct (gmtime_supported (Qfloor secs)); split.
      * discriminate.
      * intros (e & He); discriminate He.
      * intros _; eexists; reflexivity.
      * reflexivity.
    + split; [intros _; eexists; reflexivity | auto].
  - split; [intros _; eexists; reflexivity | auto].
Qed.

(** C6, amended.  For a zone on which [zone_mode] returns and whose
    [programmes] holds an entry for each of the seven day names, whatever
    the entries hold, [zone_is_scheduled_on] raises nothing.  The [try]/[except] never lets an exception out: a
    timestamp that is missing, not a number or out of range is replaced by
    the system clock's time of day, after one error is logged, and the scan
    goes on. *)
Theorem zone_is_scheduled_on_timestamp_fallback (zone : dict) (w : World) :
  (forall day, In day days -> exists program, day_program zone day = Ok program) ->
  (exists now w', zone_ts_time zone w = (Ok now, w')) /\
  (timestamp_unusable zone ->
   zone_ts_time zone w =
     (Ok (gmtime_hm (clock w)),
      mk_world (clock w) (logged w ++ [LogTimestampError]) (ember_calls w))) /\
  (exists b w', zone_is_scheduled_on zone w = (Ok b, w')).
Proof.
  intros Hdays. split; [apply zone_ts_time_total |]. split.
  - intros Hbad. apply timestamp_unusable_raises in Hbad as (e & He).
    destruct (zone_ts_time_cases zone w) as [(t & Ht & _) | (e' & _ & H)];
      [congruence | exact H].
  - destruct (zone_is_scheduled_on_scan zone w) as (now & w' & _ & Hscan).
    rewrite (for_day_imported_present _ zone now days Hdays) in Hscan.
    exists false, w'; exact Hscan.
Qed.

End ScheduleTheorems.

(** ** The activity test *)

Section ActivityTheorems.

Context {ember_api : PyEphember} {platform : Platform}.

Lemma target_not_reached_iff (zone : dict) :
  negb (zone_is_target_temperature_reached zone) = true <->
  (zone_current_temperature zone < zone_target_temperature zone)%Q.
Proof.
  unfold zone_is_target_temperature_reached.
  rewrite negb_true_iff; split.
  - intros Hle. apply Qnot_le_lt; intros H.
    apply Qle_bool_iff in H; congruence.
  - intros Hlt.
    destruct (Qle_bool (zone_target_temperature zone) (zone_current_temperature zone))
      eqn:Hle; [| reflexivity].
    apply Qle_bool_iff in Hle. exfalso; exact (Qlt_not_le _ _ Hlt Hle).
Qed.



End ActivityTheorems.

(** ** The definitions at work *)

Section Examples.

#[local] Existing Instance dict_api.
#[local] Existing Instance glibc64.

Ltac each_member H :=
  simpl in H; repeat (destruct H as [<- | H]); try contradiction.

Example strptime_examples :
  strptime_HM (PStr "09:00") = Ok (mk_time 9 0) /\
  strptime_HM (PStr "9:5") = Ok (mk_time 9 5) /\
  strptime_HM (PStr "24:00") = Raise ValueError /\
  strptime_HM (PStr "12:345") = Raise ValueError /\
  strptime_HM (PStr "9am") = Raise ValueError /\
  strptime_HM PNone = Raise TypeError.
Proof. repeat split; reflexivity. Qed.

(** The quotient by [1000] is a float: the nearest double, not the exact
    quotient. *)
Example py_truediv_examples :
  py_truediv (PInt 1704196800000) 1000 = Ok 1704196800%Q /\
  py_truediv (PInt 17999999999999999) 1000 = Ok 18000000000000%Q /\
  py_truediv (PBool true) 1000 = Ok (1152921504606847 # 1152921504606846976)%Q /\
  py_truediv (PInt (10 ^ 320)) 1000 = Raise OverflowError /\
  py_truediv (PStr "now") 1000 = Raise TypeError.
Proof. repeat split; vm_compute; reflexivity. Qed.

(** C1, as the code has it.  The office switched off, with a boost of two
    hours to 21 degrees, at 19 degrees: the boost temperature is not
    reached and the schedule test is [False], yet [zone_is_active] returns
    [False] when the zone's target temperature is 20 degrees, because the
    boost test compares the boost temperature with the target temperature.
    With a target of 25 degrees the same zone counts as heating. *)
Theorem zone_is_active_boost_ignores_current :
  returns (zone_is_scheduled_on (boosted 20)) world0 false /\
  returns (zone_is_active (boosted 20)) world0 false /\
  returns (zone_is_active (boosted 25)) world0 true /\
  zone_boost_hours (boosted 20) = Ok (PInt 2) /\
  zone_boost_temperature (boosted 20) = Ok (PFloat 21) /\
  (zone_current_temperature (boosted 20) == 19)%Q.
Proof. repeat split; vm_compute; reflexivity. Qed.

(** C2, as the code has it.  The office in mode [AUTO] on a Tuesday at 12:00,
    with a period from 09:00 to 17:00 on every day: the time lies in
    Tuesday's first period, yet [zone_is_scheduled_on] returns [False].  The
    mode the zone reports is a member of the imported [ZoneMode], which
    equals no member of the class the module defines, so no period is
    tested. *)
Theorem zone_is_scheduled_on_auto_tests_no_period :
  zone_mode (office 0 tuesday_1200) = pyephember.AUTO /\
  period_window (office 0 tuesday_1200) "tuesday" "p1" "p1" =
    Ok (mk_time 9 0, mk_time 17 0) /\
  returns (zone_ts_time (office 0 tuesday_1200)) world0 (mk_time 12 0) /\
  returns (zone_is_scheduled_on (office 0 tuesday_1200)) world0 false.
Proof. repeat split; vm_compute; reflexivity. Qed.

(** C4, as the code has it.  The house in mode [ALL_DAY] on a Tuesday at
    10:00, with [p1] starting at 06:00 and [p3] ending at 22:00 on every
    day: the time lies in the window, yet [zone_is_scheduled_on] returns
    [False], for the reason given at C2. *)
Theorem zone_is_scheduled_on_all_day_tests_no_window :
  zone_mode (house tuesday_1000) = pyephember.ALL_DAY /\
  period_window (house tuesday_1000) "tuesday" "p1" "p3" =
    Ok (mk_time 6 0, mk_time 22 0) /\
  returns (zone_ts_time (house tuesday_1000)) world0 (mk_time 10 0) /\
  returns (zone_is_scheduled_on (house tuesday_1000)) world0 false.
Proof. repeat split; vm_compute; reflexivity. Qed.

(** C5, as the code has it.  In mode [ON] the office is not scheduled on:
    [zone_is_scheduled_on] goes through the timestamp and the week and
    returns [False].  In mode [OFF] a zone whose [programmes] is [None] makes
    it raise [TypeError], and in mode [ON] as well: the schedule is read in
    every mode. *)
Theorem zone_is_scheduled_on_on_off_not_tested :
  zone_mode (office 2 tuesday_1200) = pyephember.ON /\
  returns (zone_is_scheduled_on (office 2 tuesday_1200)) world0 false /\
  zone_mode (sample_zone 3 0 PNone 19 21) = pyephember.OFF /\
  raises (zone_is_scheduled_on (sample_zone 3 0 PNone 19 21)) world0 TypeError /\
  raises (zone_is_scheduled_on (sample_zone 2 0 PNone 19 21)) world0 TypeError.
Proof. repeat split; vm_compute; reflexivity. Qed.


(** C6: a zone without a timestamp, and with a start time that is not of the
    form HH:MM, is tested at the clock's time of day and raises nothing. *)
Lemma zone_is_scheduled_on_no_timestamp :
  zone_ts_time no_timestamp world0 =
    (Ok (mk_time 12 0), mk_world (clock world0) [LogTimestampError] []) /\
  exists b w', zone_is_scheduled_on no_timestamp world0 = (Ok b, w').
Proof.
  destruct (zone_is_scheduled_on_timestamp_fallback (ember_api := dict_api)
              (platform := glibc64) no_timestamp world0)
    as (_ & Hfallback & Hreturns).
  - intros day Hd. each_member Hd; eexists; reflexivity.
  - split; [apply Hfallback; exact I | exact Hreturns].
Defined.

(** C6 as stated fails: a zone without a schedule makes the scan raise. *)
Lemma zone_is_scheduled_on_raises_on_schedule :
  raises (zone_is_scheduled_on no_programmes) world0 KeyError.
Proof. reflexivity. Qed.

(** C9: a write of 40 degrees is dropped, one of 22 degrees is sent. *)
Lemma set_temperature_40_rejected :
  (exists w', set_temperature hall (Some 40%Q) world0 = (Ok hall, w') /\
              ember_calls w' = ember_calls world0) /\
  (exists w', set_temperature hall (Some 22%Q) world0 = (Ok hall, w') /\
              ember_calls w' = [set_target_temperture_by_name "Hall" 22%Q]).
Proof.
  split.
  - destruct (set_temperature_write (ember_api := dict_api) hall 40 world0)
      as (w' & Hrun & _ & Hrejected & _).
    exists w'; split; [exact Hrun |].
    apply Hrejected. right; right; right; reflexivity.
  - destruct (set_temperature_write (ember_api := dict_api) hall 22 world0)
      as (w' & Hrun & _ & _ & Hsent).
    exists w'; split; [exact Hrun |].
    apply Hsent. intros [H | [H | [H | H]]]; discriminate H.
Defined.

End Examples.

(** * Further properties *)

Ltac members H :=
  simpl in H; repeat (destruct H as [<- | H]); try contradiction.

(** ** Modes as the platform sees them *)

Section ModeProperties.

Context {ember_api : PyEphember} {platform : Platform}.

(** X1. The mode the entity reports is always one of the modes it offers
    ([OPERATION_LIST]); it reports heat-cool for a zone in mode [AUTO] and for
    a zone in mode [ALL_DAY] alike, and for no other zone. *)
Theorem hvac_mode_offered (self : EphEmberThermostat) :
  In (hvac_mode self) OPERATION_LIST /\
  (hvac_mode self = HVAC_HEAT_COOL <->
   zone_mode (_zone self) = pyephember.AUTO \/
   zone_mode (_zone self) = pyephember.ALL_DAY).
Proof.
  unfold hvac_mode.
  destruct (zone_mode (_zone self)); simpl; (split; [tauto |]); split;
    try discriminate; auto; intros [H | H]; discriminate H.
Qed.

(** X2. Setting the entity to the mode it reports never raises and logs
    nothing.  It sends the member of the module's [ZoneMode] that has the
    name of the zone's own mode to the vendor client, except for a zone in
    mode [ALL_DAY], which it asks to put in mode [AUTO]. *)
Theorem set_hvac_mode_reported (self : EphEmberThermostat) (w : World) :
  set_hvac_mode self (hvac_mode self) w =
    (Ok self,
     mk_world (clock w) (logged w)
       (ember_calls w ++
        [set_mode_by_name (_zone_name self)
           match zone_mode (_zone self) with
           | pyephember.AUTO => AUTO
           | pyephember.ALL_DAY => AUTO
           | pyephember.ON => ON
           | pyephember.OFF => OFF
           end])).
Proof.
  unfold set_hvac_mode, hvac_mode.
  destruct (zone_mode (_zone self)); reflexivity.
Qed.

(** A write that passes the four tests of [set_temperature]. *)
Lemma set_temperature_sent (self : EphEmberThermostat) (t : Q) (w : World) :
  _hot_water self = false ->
  ~ (t == zone_target_temperature (_zone self))%Q ->
  (5 <= t)%Q -> (t <= 35)%Q ->
  set_temperature self (Some t) w =
    (Ok self,
     mk_world (clock w) (logged w ++ [LogTestingJonah])
       (ember_calls w ++ [set_target_temperture_by_name (_zone_name self) t])).
Proof.
  intros Hhot Hne Hmin Hmax.
  unfold set_temperature, max_temp, min_temp. rewrite Hhot.
  unfold target_temperature, bind, log_error, ret; simpl.
  destruct (Qeq_bool t (zone_target_temperature (_zone self))) eqn:Heq.
  - apply Qeq_bool_iff in Heq; contradiction.
  - apply Qle_bool_iff in Hmin. apply Qle_bool_iff in Hmax.
    rewrite Hmin, Hmax. reflexivity.
Qed.

(** X3. The entity does not remember a write: its stored zone changes only
    when it is refreshed, so the same accepted temperature written twice in a
    row is sent to the vendor client twice. *)
Theorem set_temperature_repeated (self : EphEmberThermostat) (t : Q) (w : World) :
  _hot_water self = false ->
  ~ (t == zone_target_temperature (_zone self))%Q ->
  (5 <= t)%Q -> (t <= 35)%Q ->
  (self' <- set_temperature self (Some t);; set_temperature self' (Some t)) w =
    (Ok self,
     mk_world (clock w) (logged w ++ [LogTestingJonah; LogTestingJonah])
       (ember_calls w ++
        [set_target_temperture_by_name (_zone_name self) t;
         set_target_temperture_by_name (_zone_name self) t])).
Proof.
  intros Hhot Hne Hmin Hmax. unfold bind at 1.
  rewrite (set_temperature_sent self t w Hhot Hne Hmin Hmax).
  rewrite (set_temperature_sent self t _ Hhot Hne Hmin Hmax). simpl.
  rewrite <- !app_assoc. reflexivity.
Qed.

End ModeProperties.

Lemma set_temperature_repeated_hall :
  ember_calls
    (snd ((self' <- set_temperature (ember_api := dict_api) hall (Some 22%Q);;
           set_temperature (ember_api := dict_api) self' (Some 22%Q)) world0)) =
    [set_target_temperture_by_name "Hall" 22%Q;
     set_target_temperture_by_name "Hall" 22%Q].
Proof.
  rewrite (set_temperature_repeated (ember_api := dict_api) hall 22 world0).
  - reflexivity.
  - reflexivity.
  - intros H; discriminate H.
  - intros H; discriminate H.
  - intros H; discriminate H.
Defined.

(** ** Times of day, parsed and computed *)

Lemma digit_value_range (c : ascii) (d : Z) :
  digit_value c = Some d -> 0 <= d <= 9.
Proof.
  unfold digit_value.
  destruct ((48 <=? Z.of_nat (nat_of_ascii c)) && (Z.of_nat (nat_of_ascii c) <=? 57))
    eqn:Hrange; intros H; [| discriminate H].
  injection H as <-.
  apply andb_true_iff in Hrange as [Hlo Hhi].
  apply Z.leb_le in Hlo. apply Z.leb_le in Hhi. lia.
Qed.

Lemma digits_upto_range (bound : Z) (s : string) (n : Z) :
  9 <= bound -> digits_upto bound s = Some n -> 0 <= n <= bound.
Proof.
  intros Hbound. unfold digits_upto.
  destruct s as [| a [| b [| c rest]]]; try discriminate.
  - intros H. apply digit_value_range in H. lia.
  - destruct (digit_value a) as [x |] eqn:Ha; [| discriminate].
    destruct (digit_value b) as [y |] eqn:Hb; [| discriminate].
    destruct (10 * x + y <=? bound) eqn:Hle; [| discriminate].
    intros H. assert (Hn : n = 10 * x + y) by congruence.
    apply digit_value_range in Ha. apply digit_value_range in Hb.
    apply Z.leb_le in Hle. lia.
Qed.

(** X4. Whatever [scheduletime_to_time] returns is a time of day: its
    argument was a string, the hour lies between 0 and 23 and the minute
    between 0 and 59. *)
Theorem scheduletime_to_time_range (stime : pyval) (t : time) :
  scheduletime_to_time stime = Ok t ->
  (exists s, stime = PStr s) /\ valid_time t.
Proof.
  unfold scheduletime_to_time, strptime_HM.
  destruct stime as [| b | z | q | s | d]; try discriminate.
  destruct (split_colon s) as [[h m] |]; [| discriminate].
  destruct (digits_upto 23 h) as [hh |] eqn:Hh; [| discriminate].
  destruct (digits_upto 59 m) as [mm |] eqn:Hm; [| discriminate].
  intros H; injection H as <-.
  apply digits_upto_range in Hh; [| lia].
  apply digits_upto_range in Hm; [| lia].
  split; [exists s; reflexivity | split; simpl; lia].
Qed.

Lemma scheduletime_to_time_range_2359 :
  (exists s, PStr "23:59" = PStr s) /\ valid_time (mk_time 23 59).
Proof.
  apply (scheduletime_to_time_range (PStr "23:59") (mk_time 23 59) eq_refl).
Defined.

Lemma gmtime_hm_valid (secs : Z) : valid_time (gmtime_hm secs).
Proof.
  unfold valid_time, gmtime_hm; simpl.
  pose proof (Z.mod_pos_bound (secs / 3600) 24).
  pose proof (Z.mod_pos_bound (secs / 60) 60). lia.
Qed.

(** *** The rounded quotient

    Below [2 ^ 44] a double is within [1 / 1024] of the number it rounds,
    and a whole number is a double. *)
Lemma round_half_even_error (x : Q) :
  (Qabs (inject_Z (round_half_even x) - x) <= 1 # 2)%Q.
Proof.
  unfold round_half_even.
  pose proof (Qfloor_le x) as Hlo. pose proof (Qlt_floor x) as Hhi.
  rewrite inject_Z_plus in Hhi. change (inject_Z 1) with 1%Q in Hhi.
  apply Qabs_Qle_condition.
  destruct (Qcompare_spec (x - inject_Z (Qfloor x)) (1 # 2)) as [H | H | H].
  - assert (H1 : (x - inject_Z (Qfloor x) <= 1 # 2)%Q) by (rewrite H; apply Qle_refl).
    assert (H2 : (1 # 2 <= x - inject_Z (Qfloor x))%Q) by (rewrite H; apply Qle_refl).
    destruct (Z.even (Qfloor x));
      [| rewrite inject_Z_plus; change (inject_Z 1) with 1%Q]; split; lra.
  - split; lra.
  - rewrite inject_Z_plus. change (inject_Z 1) with 1%Q. split; lra.
Qed.

Lemma round_half_even_exact (x : Q) (k : Z) :
  (x == inject_Z k)%Q -> round_half_even x = k.
Proof.
  intros Hx. unfold round_half_even.
  assert (Hf : Qfloor x = k) by (rewrite Hx; apply Qfloor_Z).
  rewrite Hf.
  assert (Hz : (x - inject_Z k == 0)%Q) by (rewrite Hx; ring).
  destruct (Qcompare_spec (x - inject_Z k) (1 # 2)) as [H | H | H];
    [exfalso | reflexivity | exfalso]; rewrite Hz in H; discriminate H.
Qed.

Lemma floor_log2_upper (a : Q) (b : Z) :
  0 <= b -> (0 < a)%Q -> (a < 2 ^ b)%Q -> floor_log2 a <= b - 1.
Proof.
  intros Hb Hpos Hlt. unfold floor_log2.
  set (g := Z.log2 (Qnum a) - Z.log2 (Z.pos (Qden a))).
  assert (Hg : g <= b).
  { assert (Hlt' : (a < inject_Z (2 ^ b))%Q)
      by (rewrite Zpower_Qpower by exact Hb; exact Hlt).
    destruct a as [n d]. unfold Qlt, inject_Z in Hpos, Hlt'.
    cbn [Qnum Qden] in Hpos, Hlt'.
    subst g. cbn [Qnum Qden].
    assert (Hn : 0 < n) by lia.
    pose proof (Z.log2_spec (Z.pos d) ltac:(lia)) as [_ Hd].
    assert (n < 2 ^ (b + Z.succ (Z.log2 (Z.pos d)))).
    { rewrite Z.pow_add_r by (pose proof (Z.log2_nonneg (Z.pos d)); lia).
      assert (Hpow : 0 < 2 ^ b) by (apply Z.pow_pos_nonneg; lia).
      pose proof (proj1 (Z.mul_lt_mono_pos_l (2 ^ b) _ _ Hpow) Hd). lia. }
    apply Z.log2_lt_pow2 in H; [| exact Hn]. lia. }
  destruct (Qle_bool (2 ^ g) a) eqn:Hle; [| lia].
  apply Qle_bool_iff in Hle.
  destruct (Z.eq_dec g b) as [-> | Hne]; [| lia].
  exfalso. lra.
Qed.

Lemma round_core (a : Q) (e : Z) :
  e <= -9 ->
  (Qabs (inject_Z (round_half_even (a / 2 ^ e)) * 2 ^ e - a) <= 1 # 1024)%Q /\
  (forall k : Z, (a == inject_Z k)%Q ->
     (inject_Z (round_half_even (a / 2 ^ e)) * 2 ^ e == inject_Z k)%Q).
Proof.
  intros He.
  assert (HP : (0 < 2 ^ e)%Q) by (apply Qpower_0_lt; reflexivity).
  assert (HP9 : (2 ^ e <= 1 # 512)%Q).
  { change (1 # 512)%Q with (2 ^ (-9))%Q.
    apply Qpower_le_compat_l; [exact He | discriminate]. }
  set (P := (2 ^ e)%Q) in *.
  assert (HPne : ~ (P == 0)%Q) by (intros H; rewrite H in HP; discriminate HP).
  split.
  - pose proof (round_half_even_error (a / P)) as Herr.
    set (m := inject_Z (round_half_even (a / P))) in *.
    apply Qabs_Qle_condition in Herr as [H1 H2].
    assert (Ha : (a == a / P * P)%Q) by (field; exact HPne).
    apply Qabs_Qle_condition.
    set (x := (a / P)%Q) in *.
    assert (Hd : (m * P - a == (m - x) * P)%Q) by (rewrite Ha at 1; ring).
    rewrite Hd. split; nra.
  - intros k Hk.
    assert (Hinv : (/ P == inject_Z (2 ^ (- e)))%Q).
    { rewrite Zpower_Qpower by lia. unfold P. rewrite Qpower_opp. reflexivity. }
    assert (Hx : (a / P == inject_Z (k * 2 ^ (- e)))%Q).
    { rewrite inject_Z_mult, <- Hinv, Hk. reflexivity. }
    rewrite (round_half_even_exact _ _ Hx).
    rewrite inject_Z_mult, <- Hinv. field. exact HPne.
Qed.

Lemma round_binary64_near (q : Q) :
  (Qabs q < 2 ^ 44)%Q ->
  exists r,
    round_binary64 q = Ok r /\
    (Qabs (r - q) <= 1 # 1024)%Q /\
    (forall k : Z, (q == inject_Z k)%Q -> (r == inject_Z k)%Q).
Proof.
  intros Hsmall. unfold round_binary64.
  destruct (Qeq_bool q 0) eqn:Hzero.
  { apply Qeq_bool_iff in Hzero. exists 0%Q. split; [reflexivity |]. split.
    - rewrite Hzero. discriminate.
    - intros k Hk. rewrite <- Hk, Hzero. reflexivity. }
  apply Qeq_bool_neq in Hzero.
  set (a := Qabs q) in *.
  assert (Hapos : (0 < a)%Q).
  { pose proof (Qabs_nonneg q) as Hnn. fold a in Hnn.
    destruct (Qle_lt_or_eq _ _ Hnn) as [H | H]; [exact H |].
    exfalso. apply Hzero.
    pose proof (Qle_Qabs q). pose proof (Qle_Qabs (- q)) as Hneg.
    rewrite Qabs_opp in Hneg. fold a in H0, Hneg. lra. }
  pose proof (floor_log2_upper a 44 ltac:(lia) Hapos Hsmall) as Hl.
  set (e := Z.max (floor_log2 a - 52) (-1074)).
  assert (He : e <= -9) by lia.
  destruct (round_core a e He) as [Herr Hexact].
  set (r0 := (inject_Z (round_half_even (a / 2 ^ e)) * 2 ^ e)%Q) in *.
  assert (Hred : (Qred r0 == r0)%Q) by apply Qred_correct.
  assert (Hbig : (2 ^ 44 + 1 < 2 ^ 1024)%Q) by reflexivity.
  apply Qabs_Qle_condition in Herr as [Hlo Hhi].
  set (B := (2 ^ 1024)%Q) in *. set (S := (2 ^ 44)%Q) in *.
  destruct (Qle_bool B (Qred r0)) eqn:Hover.
  { apply Qle_bool_iff in Hover. rewrite Hred in Hover. exfalso. lra. }
  destruct (Qle_bool 0 q) eqn:Hsign.
  - apply Qle_bool_iff in Hsign.
    assert (Haq : (a == q)%Q) by (apply Qabs_pos; exact Hsign).
    exists (Qred r0). split; [reflexivity |]. split.
    + rewrite Hred. apply Qabs_Qle_condition. split; lra.
    + intros k Hk. rewrite Hred. apply Hexact. rewrite Haq. exact Hk.
  - assert (Hneg : (q <= 0)%Q).
    { apply Qnot_lt_le. intros H. apply Qlt_le_weak in H.
      apply Qle_bool_iff in H. congruence. }
    assert (Haq : (a == - q)%Q) by (apply Qabs_neg; exact Hneg).
    exists (- Qred r0)%Q. split; [reflexivity |]. split.
    + rewrite Hred. apply Qabs_Qle_condition. split; lra.
    + intros k Hk. rewrite Hred.
      rewrite (Hexact (- k)%Z); [rewrite inject_Z_opp; ring |].
      rewrite Haq, Hk, inject_Z_opp. reflexivity.
Qed.

Lemma Qfloor_between (r : Q) (k : Z) :
  (inject_Z k <= r)%Q -> (r < inject_Z k + 1)%Q -> Qfloor r = k.
Proof.
  intros Hlo Hhi.
  pose proof (Qfloor_resp_le _ _ Hlo) as H1. rewrite Qfloor_Z in H1.
  pose proof (Qfloor_le r) as H2.
  assert (H3 : (inject_Z (Qfloor r) < inject_Z (k + 1))%Q).
  { rewrite inject_Z_plus. change (inject_Z 1) with 1%Q. lra. }
  rewrite <- Zlt_Qlt in H3. lia.
Qed.

Lemma Qfloor_near_milliseconds (ts : Z) (r : Q) :
  (Qabs (r - inject_Z ts / 1000) <= 1 # 1024)%Q ->
  (forall k : Z, (inject_Z ts / 1000 == inject_Z k)%Q -> (r == inject_Z k)%Q) ->
  Qfloor r = ts / 1000.
Proof.
  intros Herr Hexact.
  pose proof (Z.div_mod ts 1000 ltac:(lia)) as Hdm.
  pose proof (Z.mod_pos_bound ts 1000 ltac:(lia)) as Hj.
  set (k := ts / 1000) in *. set (j := ts mod 1000) in *.
  assert (Hq : (inject_Z ts / 1000 == inject_Z k + inject_Z j / 1000)%Q).
  { rewrite Hdm, inject_Z_plus, inject_Z_mult.
    change (inject_Z 1000) with 1000%Q. field. }
  destruct (Z.eq_dec j 0) as [Hj0 | Hj0].
  - rewrite (Hexact k); [apply Qfloor_Z |].
    rewrite Hq, Hj0. change (inject_Z 0) with 0%Q. field.
  - rewrite Hq in Herr. apply Qabs_Qle_condition in Herr as [Hlo Hhi].
    assert (H1 : (1 <= inject_Z j)%Q) by (change 1%Q with (inject_Z 1); rewrite <- Zle_Qle; lia).
    assert (H2 : (inject_Z j <= 999)%Q) by (change 999%Q with (inject_Z 999); rewrite <- Zle_Qle; lia).
    clear Hexact Hq Hdm Hj Hj0. clearbody k j.
    change (inject_Z j / 1000)%Q with (inject_Z j * (1 # 1000))%Q in Hlo, Hhi.
    apply Qfloor_between; revert Hlo Hhi H1 H2;
      generalize (inject_Z j) (inject_Z k); intros J K Hlo Hhi H1 H2; lra.
Qed.

Section TimestampProperties.

Context {ember_api : PyEphember} {platform : Platform}.

Lemma zone_timestamp_time_gmtime (zone : dict) (t : time) :
  zone_timestamp_time zone = Ok t -> exists secs, t = gmtime_hm secs.
Proof.
  unfold zone_timestamp_time, gmtime. intros H.
  apply bindR_Ok_inv in H as (ts & _ & H).
  apply bindR_Ok_inv in H as (secs & _ & H).
  destruct (gmtime_supported (Qfloor secs)); [| discriminate H].
  injection H as <-. exists (Qfloor secs); reflexivity.
Qed.

(** X5. The [try]/[except] of [zone_is_scheduled_on] yields a time of day for
    every zone: hour between 0 and 23, minute between 0 and 59.  It makes no
    call on the vendor client and logs at most the one record of the
    fallback. *)
Theorem zone_ts_time_valid (zone : dict) (w : World) :
  exists (now : time) (w' : World),
    zone_ts_time zone w = (Ok now, w') /\
    valid_time now /\
    clock w' = clock w /\
    ember_calls w' = ember_calls w /\
    (logged w' = logged w \/ logged w' = (logged w ++ [LogTimestampError])%list).
Proof.
  destruct (zone_ts_time_cases zone w) as [(t & Ht & H) | (e & _ & H)];
    rewrite H; do 2 eexists; (split; [reflexivity |]).
  - destruct (zone_timestamp_time_gmtime zone t Ht) as (secs & ->).
    split; [apply gmtime_hm_valid |]. auto.
  - split; [apply gmtime_hm_valid |]. simpl; auto.
Qed.

(** X6. A whole number of milliseconds [ts] less than [2 ^ 44] seconds away
    from the epoch, and which the platform's [gmtime] accepts, is read as
    the UTC time of day of that instant, rounded down to the minute: hour
    [ts / 3600000 mod 24], minute [ts / 60000 mod 60], also before the
    epoch.  The rounding of the float quotient does not reach the second
    there.  Nothing is logged and the clock is not read. *)
Theorem zone_ts_time_milliseconds (zone : dict) (ts : Z) (w : World) :
  dict_find "timestamp" zone = Some (PInt ts) ->
  - 17592186044416000 < ts < 17592186044416000 ->
  gmtime_supported (ts / 1000) = true ->
  zone_ts_time zone w =
    (Ok (mk_time ((ts / 3600000) mod 24) ((ts / 60000) mod 60)), w).
Proof.
  intros Hts Hrange Hok.
  assert (Hsmall : (Qabs (inject_Z ts / 1000) < 2 ^ 44)%Q).
  { apply Qabs_Qlt_condition.
    change (2 ^ 44)%Q with (inject_Z 17592186044416).
    change (inject_Z ts / 1000)%Q with (inject_Z ts * (1 # 1000))%Q.
    assert (H1 : (inject_Z (- 17592186044416000) < inject_Z ts)%Q)
      by (rewrite <- Zlt_Qlt; lia).
    assert (H2 : (inject_Z ts < inject_Z 17592186044416000)%Q)
      by (rewrite <- Zlt_Qlt; lia).
    change (inject_Z (- 17592186044416000)) with (- 17592186044416000)%Q in H1.
    change (inject_Z 17592186044416000) with 17592186044416000%Q in H2.
    change (inject_Z 17592186044416) with 17592186044416%Q.
    revert H1 H2. generalize (inject_Z ts). intros T H1 H2. split; lra. }
  destruct (round_binary64_near _ Hsmall) as (secs & Hsecs & Herr & Hexact).
  pose proof (Qfloor_near_milliseconds ts secs Herr Hexact) as Hfloor.
  unfold zone_ts_time, try_except, lift, zone_timestamp_time, dict_getitem.
  rewrite Hts. cbn [bindR py_truediv as_number].
  rewrite Hsecs. cbn [bindR]. unfold gmtime.
  rewrite Hfloor, Hok. unfold gmtime_hm.
  rewrite !Z.div_div by lia. reflexivity.
Qed.

End TimestampProperties.

Lemma zone_ts_time_milliseconds_before_epoch :
  zone_ts_time (platform := glibc64) [("timestamp", PInt (-1))] world0 =
    (Ok (mk_time 23 59), world0).
Proof.
  apply (zone_ts_time_milliseconds (platform := glibc64)
           [("timestamp", PInt (-1))] (-1) world0);
    [reflexivity | lia | reflexivity].
Defined.

(** ** Windows *)

Lemma Ok_inj {A : Type} (a b : A) : Ok a = Ok b -> a = b.
Proof. congruence. Qed.

Lemma time_leq_trans (t1 t2 t3 : time) :
  time_leq t1 t2 -> time_leq t2 t3 -> time_leq t1 t3.
Proof. unfold time_leq; lia. Qed.

Lemma time_leq_antisym (t1 t2 : time) :
  time_leq t1 t2 -> time_leq t2 t1 -> t1 = t2.
Proof.
  destruct t1 as [h1 m1], t2 as [h2 m2]; unfold time_leq; simpl; intros H1 H2.
  assert (h1 = h2) by lia. assert (m1 = m2) by lia. subst; reflexivity.
Qed.

Lemma time_leq_reflexive (t : time) : time_leq t t.
Proof. unfold time_leq; lia. Qed.

(** X7. A window whose start is later than its end, such as 22:00 to 06:00,
    holds no time of day: the test of that window is [False] at every
    time. *)
Theorem period_test_inverted (program : pyval) (first last : string)
  (start_time end_time now : time) :
  program_window program first last = Ok (start_time, end_time) ->
  ~ time_leq start_time end_time ->
  period_test program first last now = Ok false.
Proof.
  intros Hwin Hinv. rewrite period_test_window, Hwin. cbn [bindR fst snd].
  destruct (time_between start_time now end_time) eqn:Hb; [| reflexivity].
  exfalso. apply Hinv.
  apply (time_between_window now (start_time, end_time)) in Hb as [H1 H2].
  exact (time_leq_trans _ _ _ H1 H2).
Qed.

Lemma period_test_inverted_overnight :
  period_test overnight "p1" "p1" (mk_time 23 0) = Ok false /\
  period_test overnight "p1" "p1" (mk_time 5 0) = Ok false.
Proof.
  split;
    apply (period_test_inverted overnight "p1" "p1" (mk_time 22 0) (mk_time 6 0));
    try reflexivity; intros H; apply time_le_leq in H; discriminate H.
Defined.

(** X8. Both ends of a window count: a window that starts and ends at the
    same time, such as 00:00 to 00:00, holds exactly that time of day. *)
Theorem period_test_single_minute (program : pyval) (first last : string)
  (t now : time) :
  program_window program first last = Ok (t, t) ->
  (period_test program first last now = Ok true <-> now = t).
Proof.
  intros Hwin. rewrite period_test_window, Hwin. cbn [bindR fst snd].
  split.
  - intros H. apply Ok_inj in H.
    apply (time_between_window now (t, t)) in H as [H1 H2].
    exact (time_leq_antisym _ _ H2 H1).
  - intros ->. f_equal.
    apply (time_between_window t (t, t)); split; apply time_leq_reflexive.
Qed.

Lemma period_test_single_minute_midnight :
  period_test office_hours "p2" "p2" (mk_time 0 0) = Ok true.
Proof.
  apply (period_test_single_minute office_hours "p2" "p2" (mk_time 0 0) (mk_time 0 0));
    reflexivity.
Defined.

Lemma program_window_join (program : pyval) (first last : string)
  (w1 w3 : time * time) :
  program_window program first first = Ok w1 ->
  program_window program last last = Ok w3 ->
  program_window program first last = Ok (fst w1, snd w3).
Proof.
  unfold program_window; intros H1 H3.
  apply bindR_Ok_inv in H1 as (p1 & Hp1 & H1).
  apply bindR_Ok_inv in H1 as (s1 & Hs1 & H1).
  apply bindR_Ok_inv in H1 as (st1 & Hst1 & H1).
  apply bindR_Ok_inv in H1 as (q1 & _ & H1).
  apply bindR_Ok_inv in H1 as (e1 & _ & H1).
  apply bindR_Ok_inv in H1 as (et1 & _ & H1).
  apply bindR_Ok_inv in H3 as (p3 & _ & H3).
  apply bindR_Ok_inv in H3 as (s3 & _ & H3).
  apply bindR_Ok_inv in H3 as (st3 & _ & H3).
  apply bindR_Ok_inv in H3 as (q3 & Hq3 & H3).
  apply bindR_Ok_inv in H3 as (e3 & He3 & H3).
  apply bindR_Ok_inv in H3 as (et3 & Het3 & H3).
  injection H1 as <-. injection H3 as <-.
  rewrite Hp1; cbn [bindR]. rewrite Hs1; cbn [bindR]. rewrite Hst1; cbn [bindR].
  rewrite Hq3; cbn [bindR]. rewrite He3; cbn [bindR]. rewrite Het3; reflexivity.
Qed.

Section WindowProperties.

Context {ember_api : PyEphember} {platform : Platform}.

(** X9. As the program runs it, on a zone on which [zone_mode] returns, the
    schedule test never finds the zone scheduled on, in any mode and at any
    time of day.  It returns [False]
    when [programmes] holds an entry for each of the seven day names, and
    otherwise raises the [KeyError] or [TypeError] of the first day whose
    entry cannot be looked up.  The periods themselves are not read. *)
Theorem zone_is_scheduled_on_outcome (zone : dict) (w : World) :
  match fst (zone_is_scheduled_on zone w) with
  | Ok b =>
      b = false /\
      forall day, In day days -> exists program, day_program zone day = Ok program
  | Raise e =>
      (e = KeyError \/ e = TypeError) /\
      exists day, In day days /\ day_program zone day = Raise e
  end.
Proof.
  destruct (zone_is_scheduled_on_scan zone w) as (now & w' & _ & Hscan).
  rewrite Hscan. cbn [fst].
  pose proof (for_day_imported_outcome (zone_mode zone) zone now days) as Hout.
  destruct (for_day (zone_mode zone) zone now days) as [b | e]; [exact Hout |].
  destruct Hout as (day & Hd & He). split; [| exists day; auto].
  exact (day_program_raise zone day e He).
Qed.

(** X10. With one schedule and one time of day, the scan of mode [ALL_DAY]
    finds a window whenever the scan of mode [AUTO] does, provided the 21
    windows read well and on each day no period starts before [p1] starts or
    ends after [p3] ends. *)
Theorem for_day_auto_within_all_day (zone : dict) (now : time)
  (table : string -> string -> time * time) :
  (forall day period, In day days -> In period periods ->
     period_window zone day period period = Ok (table day period)) ->
  (forall day period, In day days -> In period periods ->
     time_leq (fst (table day "p1")) (fst (table day period)) /\
     time_leq (snd (table day period)) (snd (table day "p3"))) ->
  for_day AUTO zone now days = Ok true ->
  for_day ALL_DAY zone now days = Ok true.
Proof.
  intros Hwin Hord Hauto.
  rewrite (for_day_auto_table zone now table days Hwin) in Hauto.
  apply Ok_inj in Hauto.
  apply existsb_exists in Hauto as (day & Hd & Hauto).
  apply existsb_exists in Hauto as (period & Hp & Hauto).
  apply time_between_window in Hauto as [Hs He].
  rewrite (for_day_all_day_table zone now
             (fun day => (fst (table day "p1"), snd (table day "p3"))) days).
  - f_equal. apply existsb_exists. exists day; split; [exact Hd |].
    apply (time_between_window now (fst (table day "p1"), snd (table day "p3"))).
    destruct (Hord day period Hd Hp) as [H1 H3].
    split; simpl; eapply time_leq_trans; eauto.
  - intros d Hdin.
    pose proof (Hwin d "p1" Hdin (or_introl eq_refl)) as Hw1.
    pose proof (Hwin d "p3" Hdin (or_intror (or_intror (or_introl eq_refl)))) as Hw3.
    apply period_window_inv in Hw1 as (programmes & program & Hps & Hpr & Hw1).
    apply period_window_inv in Hw3 as (programmes' & program' & Hps' & Hpr' & Hw3).
    assert (programmes' = programmes) by congruence; subst programmes'.
    assert (program' = program) by congruence; subst program'.
    rewrite period_window_program, Hps; cbn [bindR]. rewrite Hpr; cbn [bindR].
    apply program_window_join; assumption.
Qed.

End WindowProperties.

Lemma for_day_auto_within_all_day_house :
  for_day ALL_DAY (house tuesday_1000) (mk_time 7 0) days = Ok true.
Proof.
  apply (for_day_auto_within_all_day (house tuesday_1000) (mk_time 7 0)
           (fun day period => window_table (house tuesday_1000) day period period)).
  - intros day period Hd Hp; members Hd; members Hp; reflexivity.
  - intros day period Hd Hp; members Hd; members Hp;
      split; apply time_le_leq; reflexivity.
  - reflexivity.
Defined.

(** ** Boost records *)

Section BoostProperties.

Context {ember_api : PyEphember} {platform : Platform}.

(** X11. On a zone on which the imported [zone_is_boost_active] returns,
    [zone_boost_hours] and [zone_boost_timestamp] share their guards: one
    raises exactly when the other does, [zone_boost_hours] raises only
    [AttributeError] and only when the flag is true and [boostActivations]
    is a non-empty value, and where the flag is false or [boostActivations]
    is missing, [None] or empty they return [0] and [None]. *)
Theorem boost_hours_timestamp_guards (zone : dict) :
  ((exists e, zone_boost_hours zone = Raise e) <->
   (exists e, zone_boost_timestamp zone = Raise e)) /\
  (forall e, zone_boost_hours zone = Raise e ->
             e = AttributeError /\ zone_is_boost_active zone = true /\
             truthy (_zone_boostactivation zone) = true) /\
  (zone_is_boost_active zone = false \/
   truthy (_zone_boostactivation zone) = false ->
   zone_boost_hours zone = Ok (PInt 0) /\ zone_boost_timestamp zone = Ok PNone).
Proof.
  unfold zone_boost_hours, zone_boost_timestamp.
  destruct (zone_is_boost_active zone); cbn [negb].
  2: { split; [| split].
       - split; intros (e & H); discriminate H.
       - intros e H; discriminate H.
       - intros _; split; reflexivity. }
  destruct (truthy (_zone_boostactivation zone)) eqn:Htruthy; cbn [negb].
  2: { split; [| split].
       - split; intros (e & H); discriminate H.
       - intros e H; discriminate H.
       - intros _; split; reflexivity. }
  destruct (_zone_boostactivation zone) as [| b | z | q | s | d];
    cbn [get_method]; try discriminate Htruthy.
  1-4: (split; [split; intros _; eexists; reflexivity |];
        split; [intros e H; injection H as <-; auto |];
        intros [H | H]; discriminate H).
  split; [split; intros (e & H); discriminate H |].
  split; [intros e H; discriminate H |].
  intros [H | H]; discriminate H.
Qed.

(** X12. Once [zone_boost_hours] has returned a number above 0,
    [boostActivations] is a dictionary and [zone_boost_temperature] returns
    its [targettemperature] entry, [None] when there is none: reading the
    boost temperature cannot raise there. *)
Theorem zone_boost_temperature_after_hours (zone : dict) (hours : pyval) :
  zone_boost_hours zone = Ok hours ->
  py_gt hours 0 = Ok true ->
  exists d,
    _zone_boostactivation zone = PDict d /\
    zone_boost_temperature zone = Ok (dict_get d "targettemperature" PNone).
Proof.
  unfold zone_boost_hours, zone_boost_temperature.
  assert (Hzero : py_gt (PInt 0) 0 <> Ok true) by discriminate.
  destruct (zone_is_boost_active zone); cbn [negb];
    [| intros H Hgt; apply Ok_inj in H; subst hours; contradiction].
  destruct (truthy (_zone_boostactivation zone)) eqn:Htruthy; cbn [negb];
    [| intros H Hgt; apply Ok_inj in H; subst hours; contradiction].
  destruct (_zone_boostactivation zone) as [| b | z | q | s | d];
    cbn [get_method]; try discriminate.
  intros _ _. exists d; split; reflexivity.
Qed.

End BoostProperties.

Lemma zone_boost_temperature_after_hours_boosted :
  zone_boost_temperature (boosted 20) = Ok (PFloat 21).
Proof.
  destruct (zone_boost_temperature_after_hours (ember_api := dict_api)
              (boosted 20) (PInt 2) eq_refl eq_refl) as (d & Hd & Htemp).
  injection Hd as <-. exact Htemp.
Defined.

(** ** Heating or idle *)

Section HeatingProperties.

Context {ember_api : PyEphember} {platform : Platform}.

(** [zone_is_active] after its schedule test has returned: the first
    [return True], or what the boost data gives. *)
Lemma zone_is_active_return_run (zone : dict) (w : World) (scheduled : bool) :
  returns (zone_is_scheduled_on zone) w scheduled ->
  exists w2,
    zone_is_active_return zone w =
      if (if scheduled then true else truthy (zone_advance_active zone))
         && negb (zone_is_target_temperature_reached zone)
      then (Ok ReturnScheduled, w2)
      else
        ((let? hours := zone_boost_hours zone in
          let? boosting := py_gt hours 0 in
          if boosting then
            let? reached := zone_is_target_boost_temperature_reached zone in
            Ok (if negb reached then ReturnBoost else ReturnIdle)
          else Ok ReturnIdle), w2).
Proof.
  intros Hsched. unfold returns in Hsched. unfold zone_is_active_return.
  unfold bind at 1. unfold log_error at 1. unfold bind at 1.
  set (w1 := mk_world (clock w) (logged w ++ [LogGotZone zone]) (ember_calls w)).
  assert (Hs1 : fst (zone_is_scheduled_on zone w1) = Ok scheduled).
  { rewrite (zone_is_scheduled_on_clock zone w1 w); [exact Hsched | reflexivity]. }
  destruct (zone_is_scheduled_on zone w1) as [[s | e] w2]; simpl in Hs1;
    [apply Ok_inj in Hs1; subst s | discriminate Hs1].
  exists w2.
  destruct ((if scheduled then true else truthy (zone_advance_active zone))
            && negb (zone_is_target_temperature_reached zone)); [reflexivity |].
  unfold bind, lift, ret.
  destruct (zone_boost_hours zone) as [hours |]; cbn [bindR]; [| reflexivity].
  destruct (py_gt hours 0) as [[|] |]; cbn [bindR]; try reflexivity.
  destruct (zone_is_target_boost_temperature_reached zone) as [[|] |]; reflexivity.
Qed.

Lemma zone_is_active_of_return (zone : dict) (w w' : World) (r : active_return) :
  zone_is_active_return zone w = (Ok r, w') ->
  zone_is_active zone w =
    (Ok match r with ReturnScheduled | ReturnBoost => true | ReturnIdle => false end,
     w').
Proof. intros H; unfold zone_is_active, bind; rewrite H; reflexivity. Qed.

Lemma zone_is_active_of_raise (zone : dict) (w w' : World) (e : exn) :
  zone_is_active_return zone w = (Raise e, w') ->
  zone_is_active zone w = (Raise e, w').
Proof. intros H; unfold zone_is_active, bind; rewrite H; reflexivity. Qed.

Lemma boost_hours_positive (zone : dict) (d : dict) (h : Q) :
  zone_is_boost_active zone = true ->
  _zone_boostactivation zone = PDict d ->
  as_number (dict_get d "numberofhours" (PInt 0)) = Some h ->
  (0 < h)%Q ->
  exists hours, zone_boost_hours zone = Ok hours /\ py_gt hours 0 = Ok true.
Proof.
  intros Hactive Hba Hh Hpos.
  assert (Hgt : py_gt (dict_get d "numberofhours" (PInt 0)) 0 = Ok true).
  { unfold py_gt; rewrite Hh. f_equal. apply negb_true_iff.
    destruct (Qle_bool h 0) eqn:Hle; [| reflexivity].
    apply Qle_bool_iff in Hle. exfalso; exact (Qlt_not_le _ _ Hpos Hle). }
  exists (dict_get d "numberofhours" (PInt 0)); split; [| exact Hgt].
  unfold zone_boost_hours. rewrite Hactive, Hba; cbn [negb truthy].
  destruct d as [| kv rest]; [| reflexivity].
  exfalso. cbn in Hh. apply (f_equal (fun o => match o with
                                                | Some q => Qle_bool q 0
                                                | None => false
                                                end)) in Hh.
  cbn in Hh. symmetry in Hh. apply Qle_bool_iff in Hh.
  exact (Qlt_not_le _ _ Hpos Hh).
Qed.

(** X14. While the boost is not active, [zone_is_active] returns whenever its
    schedule test does, in every mode: [True] exactly when the zone is
    scheduled on or its advance flag (the entry [isadvanceactive], [False]
    when absent) is set, and the current temperature is below the target.
    So a zone in mode [OFF] with the advance flag set counts as heating while
    it is below its target. *)
Theorem zone_is_active_without_boost (zone : dict) (w : World) (scheduled : bool) :
  zone_is_boost_active zone = false ->
  returns (zone_is_scheduled_on zone) w scheduled ->
  exists b : bool,
    returns (zone_is_active zone) w b /\
    (b = true <->
     (scheduled = true \/
      truthy (dict_get zone "isadvanceactive" (PBool false)) = true) /\
     (zone_current_temperature zone < zone_target_temperature zone)%Q).
Proof.
  intros Hboost Hsched.
  change (dict_get zone "isadvanceactive" (PBool false))
    with (zone_advance_active zone).
  destruct (zone_is_active_return_run zone w scheduled Hsched) as (w2 & Hrun).
  assert (Hhours : zone_boost_hours zone = Ok (PInt 0))
    by (unfold zone_boost_hours; rewrite Hboost; reflexivity).
  rewrite Hhours in Hrun. cbn [bindR] in Hrun.
  change (py_gt (PInt 0) 0) with (@Ok bool false) in Hrun. cbn [bindR] in Hrun.
  destruct ((if scheduled then true else truthy (zone_advance_active zone))
            && negb (zone_is_target_temperature_reached zone)) eqn:Hcond.
  - exists true; split.
    + unfold returns; rewrite (zone_is_active_of_return _ _ _ _ Hrun); reflexivity.
    + rewrite <- target_not_reached_iff. split; [intros _ | reflexivity].
      apply andb_true_iff in Hcond as [Hon Hnot]. split; [| exact Hnot].
      destruct scheduled; [left; reflexivity | right; exact Hon].
  - exists false; split.
    + unfold returns; rewrite (zone_is_active_of_return _ _ _ _ Hrun); reflexivity.
    + rewrite <- target_not_reached_iff. split; [discriminate |].
      intros [[-> | Hadv] Hnot]; exfalso.
      * simpl in Hcond; congruence.
      * rewrite Hadv, Hnot in Hcond. destruct scheduled; discriminate Hcond.
Qed.

(** X15. When the schedule test of [zone_is_active] fails and the boost is
    active for a number of hours above 0, the outcome is decided by the boost
    record's target temperature against the zone's target temperature: a
    record without a number there makes [zone_is_active] raise [TypeError],
    and with the number [b] the zone counts as heating exactly when [b] is
    below the zone's target.  The current temperature plays no part. *)
Theorem zone_is_active_boost_test (zone : dict) (w : World) (scheduled : bool)
  (d : dict) (h : Q) :
  returns (zone_is_scheduled_on zone) w scheduled ->
  (scheduled = false /\
   truthy (dict_get zone "isadvanceactive" (PBool false)) = false) \/
  zone_is_target_temperature_reached zone = true ->
  zone_is_boost_active zone = true ->
  _zone_boostactivation zone = PDict d ->
  as_number (dict_get d "numberofhours" (PInt 0)) = Some h ->
  (0 < h)%Q ->
  match as_number (dict_get d "targettemperature" PNone) with
  | None => raises (zone_is_active zone) w TypeError
  | Some b =>
      exists r : bool,
        returns (zone_is_active zone) w r /\
        (r = true <-> (b < zone_target_temperature zone)%Q)
  end.
Proof.
  intros Hsched Hfirst Hactive Hba Hh Hpos.
  change (dict_get zone "isadvanceactive" (PBool false))
    with (zone_advance_active zone) in Hfirst.
  destruct (zone_is_active_return_run zone w scheduled Hsched) as (w2 & Hrun).
  assert (Hcond : (if scheduled then true else truthy (zone_advance_active zone))
                  && negb (zone_is_target_temperature_reached zone) = false).
  { destruct Hfirst as [[-> ->] | ->]; [reflexivity |].
    cbn [negb]. apply andb_false_r. }
  rewrite Hcond in Hrun.
  destruct (boost_hours_positive zone d h Hactive Hba Hh Hpos)
    as (hours & Hhours & Hgt).
  rewrite Hhours in Hrun; cbn [bindR] in Hrun.
  rewrite Hgt in Hrun; cbn [bindR] in Hrun.
  assert (Htemp : zone_boost_temperature zone =
                  Ok (dict_get d "targettemperature" PNone)).
  { unfold zone_boost_temperature; rewrite Hba; reflexivity. }
  unfold zone_is_target_boost_temperature_reached in Hrun.
  rewrite Htemp in Hrun; cbn [bindR] in Hrun. unfold py_ge in Hrun.
  destruct (as_number (dict_get d "targettemperature" PNone)) as [b |];
    cbn [bindR] in Hrun.
  - exists (negb (Qle_bool (zone_target_temperature zone) b)); split.
    + unfold returns; rewrite (zone_is_active_of_return _ _ _ _ Hrun).
      destruct (Qle_bool (zone_target_temperature zone) b); reflexivity.
    + rewrite negb_true_iff. split.
      * intros Hle. apply Qnot_le_lt; intros H.
        apply Qle_bool_iff in H; congruence.
      * intros Hlt.
        destruct (Qle_bool (zone_target_temperature zone) b) eqn:Hle;
          [| reflexivity].
        apply Qle_bool_iff in Hle. exfalso; exact (Qlt_not_le _ _ Hlt Hle).
  - unfold raises; rewrite (zone_is_active_of_raise _ _ _ _ Hrun); reflexivity.
Qed.

Lemma zone_is_scheduled_on_world (zone : dict) (w : World) :
  snd (zone_is_scheduled_on zone w) = w \/
  snd (zone_is_scheduled_on zone w) =
    mk_world (clock w) (logged w ++ [LogTimestampError]) (ember_calls w).
Proof.
  destruct (zone_is_scheduled_on_scan zone w) as (now & w' & Hts & ->). cbn [snd].
  destruct (zone_ts_time_cases zone w) as [(t & _ & H) | (e & _ & H)];
    rewrite H in Hts; injection Hts as _ <-; [left | right]; reflexivity.
Qed.

(** X16. On a zone on which the imported accessors return, and whether it
    returns or raises itself, [zone_is_active] makes no call on the
    vendor client.  Every evaluation logs the whole zone as an error record,
    followed by the record of the timestamp fallback when that is taken, and
    nothing else. *)
Theorem zone_is_active_world (zone : dict) (w : World) :
  clock (snd (zone_is_active zone w)) = clock w /\
  ember_calls (snd (zone_is_active zone w)) = ember_calls w /\
  (logged (snd (zone_is_active zone w)) = (logged w ++ [LogGotZone zone])%list \/
   logged (snd (zone_is_active zone w)) =
     (logged w ++ [LogGotZone zone; LogTimestampError])%list).
Proof.
  set (w1 := mk_world (clock w) (logged w ++ [LogGotZone zone]) (ember_calls w)).
  assert (Hsnd : snd (zone_is_active zone w) = snd (zone_is_scheduled_on zone w1)).
  { unfold zone_is_active, zone_is_active_return.
    unfold bind at 1 2. unfold log_error at 1. unfold bind at 1. fold w1.
    destruct (zone_is_scheduled_on zone w1) as [[s | e] w2]; [| reflexivity].
    destruct ((if s then true else truthy (zone_advance_active zone))
              && negb (zone_is_target_temperature_reached zone)); [reflexivity |].
    unfold bind, lift, ret.
    destruct (zone_boost_hours zone) as [hours |]; [| reflexivity].
    destruct (py_gt hours 0) as [[|] |]; try reflexivity.
    destruct (zone_is_target_boost_temperature_reached zone) as [[|] |];
      reflexivity. }
  rewrite Hsnd.
  destruct (zone_is_scheduled_on_world zone w1) as [-> | ->]; subst w1; simpl.
  - auto.
  - rewrite <- app_assoc. auto.
Qed.

End HeatingProperties.

(** The office switched off with the advance flag set, below its target. *)
Lemma zone_is_active_without_boost_advance :
  returns (zone_is_active (ember_api := dict_api) (platform := glibc64)
             (office_advance 3)) world0 true.
Proof.
  destruct (zone_is_active_without_boost (ember_api := dict_api)
              (platform := glibc64) (office_advance 3)
              world0 false eq_refl eq_refl) as (b & Hb & Hiff).
  replace b with true in Hb; [exact Hb |].
  symmetry; apply Hiff. split; [right; reflexivity | reflexivity].
Defined.

Lemma zone_is_active_boost_test_no_temperature :
  raises (zone_is_active (ember_api := dict_api) (platform := glibc64)
            boost_no_temperature) world0 TypeError.
Proof.
  apply (zone_is_active_boost_test (ember_api := dict_api) (platform := glibc64)
           boost_no_temperature world0 false
           [("numberofhours", PInt 2)] 2%Q);
    try reflexivity.
  left; split; reflexivity.
Defined.
